(** * Extraction-to-dataset pipeline of financial-ai-assistant-dashboard

    Shallow embedding of [src/src/extraction/pipeline.py]
    ([LLMExtractionPipeline]) and of [validate_data_structure] in
    [src/app.py].  Python strings are modelled as Stdlib [string]
    (ASCII text); Python exceptions as the [Raise] branch of [result]. *)

From Stdlib Require Import String Ascii List Arith Lia ZArith Bool.
From Stdlib Require Import Numbers.DecimalString.
From Stdlib Require Import Sorting.Sorted Sorting.Permutation.
Import ListNotations.
Open Scope string_scope.
Set Warnings "-register-all".

(** ** Python runtime fragments *)

Inductive PyError :=
| BaseExc (msg : string)      (* [raise BaseException(...)] *)
| TypeError
| IndexError
| KeyError (key : string)
| ValueError (msg : string)
| LiteralError.               (* anything [ast.literal_eval] raises *)

Inductive result (A : Type) :=
| Ok (a : A)
| Raise (e : PyError).
Arguments Ok {A} a.
Arguments Raise {A} e.

Definition bind {A B} (m : result A) (k : A -> result B) : result B :=
  match m with Ok a => k a | Raise e => Raise e end.
Notation "x <- m ;; k" := (bind m (fun x => k))
  (at level 61, m at next level, right associativity).

Module PyStr.

(** [sub in s] *)
Fixpoint contains (sub s : string) : bool :=
  prefix sub s ||
  match s with
  | EmptyString => false
  | String _ s' => contains sub s'
  end.

(** [s.find(sub)]: first index of [sub] in [s], or -1 *)
Fixpoint find (sub s : string) : Z :=
  if prefix sub s then 0%Z
  else match s with
       | EmptyString => (-1)%Z
       | String _ s' =>
           let r := find sub s' in
           if (r <? 0)%Z then (-1)%Z else (r + 1)%Z
       end.

Fixpoint drop (n : nat) (s : string) : string :=
  match n, s with
  | O, _ => s
  | S _, EmptyString => EmptyString
  | S k, String _ s' => drop k s'
  end.

(** [s[i:]] *)
Definition slice_from (i : Z) (s : string) : string :=
  if (i <? 0)%Z
  then drop (Nat.max 0 (String.length s - Z.to_nat (- i))) s
  else drop (Z.to_nat i) s.

(** [s.replace(old, new)]: every non-overlapping occurrence of [old],
    scanned left to right, is replaced; [skip] counts the characters of
    the current occurrence still to be consumed. *)
Fixpoint replace_aux (old new : string) (skip : nat) (s : string) : string :=
  match s with
  | EmptyString => EmptyString
  | String c s' =>
      match skip with
      | S k => replace_aux old new k s'
      | O => if prefix old s
             then new ++ replace_aux old new (String.length old - 1) s'
             else String c (replace_aux old new 0 s')
      end
  end.

(** an empty [old] inserts [new] around every character *)
Fixpoint insert_around (new s : string) : string :=
  match s with
  | EmptyString => new
  | String c s' => new ++ String c (insert_around new s')
  end.

Definition replace (s old new : string) : string :=
  match old with
  | EmptyString => insert_around new s
  | _ => replace_aux old new 0 s
  end.

(** [str(n)] for a non-negative int *)
Definition of_nat (n : nat) : string :=
  NilEmpty.string_of_uint (Nat.to_uint n).

End PyStr.

(** ** Page Locator: [list_all_files] and [extract_pl_pages] *)

(** A PDF as pdfplumber presents it: its path and the text
    [page.extract_text()] returns for each page, in page order. *)
Record Document := { doc_path : string; doc_pages : list string }.

(** The raw-data directory: [os.listdir(raw_data_path + simbol)] composed
    with the [glob] of each entry; [None] when the directory is absent
    ([FileNotFoundError]). *)
Definition RawDir := string -> option (list Document).

Definition list_all_files (raw : RawDir) (simbol : string)
  : result (list Document) :=
  match raw simbol with
  | Some files => Ok files
  | None => Raise (BaseExc
      "Error on listing files: Simbol not found! Simbols allowed REXP or DIPD")
  end.

Definition map_page_simbol (simbol : string) : option string :=
  if String.eqb simbol "REXP" then Some "Consolidated Income Statements"
  else if String.eqb simbol "DIPD" then Some "STATEMENT OF PROFIT OR LOSS"
  else None.

(** the dict [target] with its four lists *)
Record Target := {
  t_index : list nat;
  t_simbol : list string;
  t_file_name : list string;
  t_target_page : list string }.

Definition empty_target : Target := Build_Target [] [] [] [].

(** [financial_file[financial_file.find(simbol)+5:]] *)
Definition trim_file_name (simbol financial_file : string) : string :=
  PyStr.slice_from (PyStr.find simbol financial_file + 5) financial_file.

(** inner loop over [pdf.pages]; [None in text] raises [TypeError] *)
Fixpoint scan_pages (simbol financial_file : string) (marker : option string)
    (pages : list string) (t : Target) : result Target :=
  match pages with
  | [] => Ok t
  | page :: rest =>
      match marker with
      | None => Raise TypeError
      | Some m =>
          let t' :=
            if PyStr.contains m page
            then Build_Target (t_index t)
                   (t_simbol t ++ [simbol])
                   (t_file_name t ++ [trim_file_name simbol financial_file])
                   (t_target_page t ++ [page])
            else t in
          scan_pages simbol financial_file marker rest t'
      end
  end.

(** outer loop over [financial_files]; [index] is appended after every
    document, whatever its pages matched *)
Fixpoint scan_files (simbol : string) (marker : option string)
    (files : list Document) (index : nat) (t : Target) : result Target :=
  match files with
  | [] => Ok t
  | f :: rest =>
      t1 <- scan_pages simbol (doc_path f) marker (doc_pages f) t ;;
      scan_files simbol marker rest (S index)
        (Build_Target (t_index t1 ++ [index]) (t_simbol t1)
           (t_file_name t1) (t_target_page t1))
  end.

Definition extract_pl_pages (raw : RawDir) (simbol : string) : result Target :=
  files <- list_all_files raw simbol ;;
  scan_files simbol (map_page_simbol simbol) files 0 empty_target.

(** ** Extraction Client: [llm_data_extraction] *)

(** [pages.items()] in insertion order, every value rendered by the
    f-string ([str] of the int index, the strings as they are) *)
Definition target_items (t : Target) : list (string * list string) :=
  [("index", map PyStr.of_nat (t_index t));
   ("simbol", t_simbol t);
   ("file_name", t_file_name t);
   ("target_page", t_target_page t)].

Definition nl : string := String (ascii_of_nat 10) EmptyString.
Definition dq : string := String (ascii_of_nat 34) EmptyString.
Definition indent20 : string := "                    ".

(** the body of the [for key,value in pages.items()] loop, with
    [value[index]] raising [IndexError] out of range *)
Fixpoint build_fields (items : list (string * list string)) (index : nat)
  : result string :=
  match items with
  | [] => Ok EmptyString
  | (key, value) :: rest =>
      match nth_error value index with
      | None => Raise IndexError
      | Some v =>
          tl <- build_fields rest index ;;
          Ok (nl ++ indent20 ++ dq ++ key ++ dq ++ ":" ++ dq ++ v ++ dq ++ ","
                ++ tl)
      end
  end.

Definition build_message (t : Target) (index : nat) : result string :=
  body <- build_fields (target_items t) index ;;
  Ok ("{" ++ nl ++ body ++ nl ++ "}").

Section Client.
(** [self.client.messages.create(...).content[0].text]: the reply of the
    model to the user message under the system prompt *)
Variable llm : string -> string -> string.

(** the loop over [range(len(pages['index']))]; the first component is
    the list of requests sent, in order *)
Fixpoint extraction_loop (t : Target) (sys_prompt : string)
    (indices : list nat) : list string * result (list string) :=
  match indices with
  | [] => ([], Ok [])
  | i :: rest =>
      match build_message t i with
      | Raise e => ([], Raise e)
      | Ok message =>
          let response := llm sys_prompt message in
          let '(sent, r) := extraction_loop t sys_prompt rest in
          (message :: sent,
           match r with Ok rs => Ok (response :: rs) | Raise e => Raise e end)
      end
  end.

Definition llm_data_extraction (pages : Target) (sys_prompt : string)
  : list string * result (list string) :=
  extraction_loop pages sys_prompt (seq 0 (length (t_index pages))).
End Client.

(** ** Response Parser: [parse_llm_extraction_response] *)

(** Python values [ast.literal_eval] can return, restricted to the
    literal forms the extraction prompt asks for. *)
Inductive PyVal :=
| PStr (s : string)
| PInt (z : Z)
| PBool (b : bool)
| PNone
| PList (l : list PyVal)
| PDict (kvs : list (PyVal * PyVal)).

(** [data.replace('```','').replace('json','')] *)
Definition strip_fences (data : string) : string :=
  PyStr.replace (PyStr.replace data "```" "") "json" "".

Section Parser.
(** [ast.literal_eval]: [None] when it raises *)
Variable literal_eval : string -> option PyVal.

(** the loop over [responses]; the first component is what was printed.
    On failure the stripped text is printed and the exception re-raised. *)
Fixpoint parse_llm_extraction_response (responses : list string)
  : list string * result (list PyVal) :=
  match responses with
  | [] => ([], Ok [])
  | data :: rest =>
      let parsed := strip_fences data in
      match literal_eval parsed with
      | None => ([parsed], Raise LiteralError)
      | Some v =>
          let '(out, r) := parse_llm_extraction_response rest in
          (out, match r with Ok vs => Ok (v :: vs) | Raise e => Raise e end)
      end
  end.
End Parser.

(** *** A model of [ast.literal_eval] on a fragment of literal syntax

    [Outside]: the input uses literal syntax this model does not cover
    (floats, tuples, sets, bytes, string prefixes, comments, parentheses,
    triple quotes, backslash escapes other than backslash, both quotes, n, t
    and line continuation, control or
    non-ASCII characters, very deep nesting or very long integers); no
    claim is made there.  [Fails]: Python raises.  [Val v]: Python
    returns [v]. *)
Inductive frag (A : Type) := Outside | Fails | Val (a : A).
Arguments Outside {A}.
Arguments Fails {A}.
Arguments Val {A} a.

Module Lit.
Local Open Scope nat_scope.

Inductive tok :=
| TLBrace | TRBrace | TLBrack | TRBrack | TColon | TComma | TMinus | TPlus
| TStr (s : string) | TInt (z : Z) | TConst (v : PyVal) | TName (s : string)
| TNL.

Definition code (c : ascii) : nat := nat_of_ascii c.
Definition is_digit (c : ascii) : bool := (48 <=? code c) && (code c <=? 57).
Definition is_alpha (c : ascii) : bool :=
  ((65 <=? code c) && (code c <=? 90)) || ((97 <=? code c) && (code c <=? 122)).
Definition is_ident_char (c : ascii) : bool :=
  is_alpha c || is_digit c || (code c =? 95).
Definition is_quote (c : ascii) : bool := (code c =? 34) || (code c =? 39).

Definition head_is (p : ascii -> bool) (s : string) : bool :=
  match s with String c _ => p c | EmptyString => false end.

(** the rest of the current line holds only spaces and tabs *)
Fixpoint blank_line (s : string) : bool :=
  match s with
  | EmptyString => true
  | String c r =>
      if code c =? 10 then true
      else if (code c =? 32) || (code c =? 9) then blank_line r else false
  end.

Fixpoint span (p : ascii -> bool) (s : string) : string * string :=
  match s with
  | String c r => if p c then let '(a, b) := span p r in (String c a, b)
                  else (EmptyString, s)
  | EmptyString => (EmptyString, EmptyString)
  end.

Fixpoint digits_value (acc : Z) (s : string) : Z :=
  match s with
  | EmptyString => acc
  | String c r => digits_value (acc * 10 + Z.of_nat (code c - 48))%Z r
  end.

(** a single-quoted string body up to its closing quote [q] *)
Fixpoint lex_str (q : ascii) (s : string) : frag (string * string) :=
  match s with
  | EmptyString => Fails
  | String c r =>
      if Ascii.eqb c q then Val (EmptyString, r)
      else if code c =? 10 then Fails
      else if (128 <=? code c) || ((code c <? 32) && negb (code c =? 9))
      then Outside
      else if code c =? 92 then
        match r with
        | EmptyString => Fails
        | String e r' =>
            let k := code e in
            let esc :=
              if (k =? 92) || (k =? 39) || (k =? 34) then Some (String e EmptyString)
              else if k =? 110 then Some (String (ascii_of_nat 10) EmptyString)
              else if k =? 116 then Some (String (ascii_of_nat 9) EmptyString)
              else if k =? 10 then Some EmptyString
              else None in
            match esc with
            | None => Outside
            | Some x =>
                match lex_str q r' with
                | Val (body, rest) => Val (x ++ body, rest)
                | Fails => Fails
                | Outside => Outside
                end
            end
        end
      else match lex_str q r with
           | Val (body, rest) => Val (String c body, rest)
           | Fails => Fails
           | Outside => Outside
           end
  end.

Definition fcons (t : tok) (m : frag (list tok)) : frag (list tok) :=
  match m with Val ts => Val (t :: ts) | Fails => Fails | Outside => Outside end.

Fixpoint lex (fuel depth : nat) (line_start : bool) (s : string)
  : frag (list tok) :=
  match fuel with
  | O => Outside
  | S fuel' =>
  match s with
  | EmptyString => Val []
  | String c r =>
    let k := code c in
    if (k =? 32) || (k =? 9) then
      if line_start && (depth =? 0) && negb (blank_line r) then Fails
      else lex fuel' depth line_start r
    else if k =? 10 then
      if depth =? 0 then fcons TNL (lex fuel' 0 true r)
      else lex fuel' depth line_start r
    else if line_start && (depth =? 0) then lex fuel' depth false s
    else if (k =? 123) || (k =? 91) then
      if 100 <=? depth then Outside
      else fcons (if k =? 123 then TLBrace else TLBrack) (lex fuel' (S depth) false r)
    else if (k =? 125) || (k =? 93) then
      if depth =? 0 then Fails
      else fcons (if k =? 125 then TRBrace else TRBrack) (lex fuel' (depth - 1) false r)
    else if k =? 58 then fcons TColon (lex fuel' depth false r)
    else if k =? 44 then fcons TComma (lex fuel' depth false r)
    else if k =? 45 then fcons TMinus (lex fuel' depth false r)
    else if k =? 43 then fcons TPlus (lex fuel' depth false r)
    else if is_quote c then
      if prefix (String c (String c EmptyString)) r then Outside
      else match lex_str c r with
           | Val (body, rest) => fcons (TStr body) (lex fuel' depth false rest)
           | Fails => Fails
           | Outside => Outside
           end
    else if is_digit c then
      let '(ds, rest) := span is_digit s in
      if head_is (fun x => is_ident_char x || (code x =? 46)) rest then Outside
      else if 4300 <? String.length ds then Outside
      else if (k =? 48) && negb (Z.eqb (digits_value 0 ds) 0) then Fails
      else fcons (TInt (digits_value 0 ds)) (lex fuel' depth false rest)
    else if is_alpha c || (k =? 95) then
      let '(id, rest) := span is_ident_char s in
      if head_is is_quote rest then Outside
      else fcons (if String.eqb id "True" then TConst (PBool true)
                  else if String.eqb id "False" then TConst (PBool false)
                  else if String.eqb id "None" then TConst PNone
                  else TName id)
                 (lex fuel' depth false rest)
    else Outside
  end
  end.

(** key equality of a dict: [True == 1] and [False == 0] *)
Definition key_eqb (a b : PyVal) : bool :=
  match a, b with
  | PStr x, PStr y => String.eqb x y
  | PInt x, PInt y => Z.eqb x y
  | PBool x, PBool y => Bool.eqb x y
  | PInt x, PBool y | PBool y, PInt x => Z.eqb x (if y then 1 else 0)%Z
  | PNone, PNone => true
  | _, _ => false
  end.

Definition hashable (v : PyVal) : bool :=
  match v with PList _ | PDict _ => false | _ => true end.

(** [d[k] = v]: a present key keeps its first spelling and takes the new
    value; a new key goes last *)
Fixpoint dict_set (kvs : list (PyVal * PyVal)) (k v : PyVal)
  : list (PyVal * PyVal) :=
  match kvs with
  | [] => [(k, v)]
  | (k', v') :: rest =>
      if key_eqb k' k then (k', v) :: rest else (k', v') :: dict_set rest k v
  end.

(** adjacent string literals are concatenated *)
Fixpoint more_strs (ts : list tok) : string * list tok :=
  match ts with
  | TStr s :: r => let '(s', r') := more_strs r in (s ++ s', r')
  | _ => (EmptyString, ts)
  end.

Definition fbind {A B} (m : frag A) (k : A -> frag B) : frag B :=
  match m with Val a => k a | Fails => Fails | Outside => Outside end.

(** a literal expression, its list display and its dict display *)
Fixpoint p_expr (fuel : nat) (ts : list tok) : frag (PyVal * list tok) :=
  match fuel with
  | O => Outside
  | S f =>
    match ts with
    | TMinus :: TInt z :: r => Val (PInt (- z)%Z, r)
    | TPlus :: TInt z :: r => Val (PInt z, r)
    | TInt z :: r => Val (PInt z, r)
    | TStr s :: r => let '(s', r') := more_strs r in Val (PStr (s ++ s'), r')
    | TConst v :: r => Val (v, r)
    | TLBrack :: r => p_list f r []
    | TLBrace :: r => p_dict f r []
    | _ => Fails
    end
  end
with p_list (fuel : nat) (ts : list tok) (acc : list PyVal)
  : frag (PyVal * list tok) :=
  match fuel with
  | O => Outside
  | S f =>
    match ts with
    | TRBrack :: r => Val (PList (rev acc), r)
    | _ =>
      fbind (p_expr f ts) (fun '(e, r) =>
        match r with
        | TComma :: TRBrack :: r' => Val (PList (rev (e :: acc)), r')
        | TComma :: r' => p_list f r' (e :: acc)
        | TRBrack :: r' => Val (PList (rev (e :: acc)), r')
        | _ => Fails
        end)
    end
  end
with p_dict (fuel : nat) (ts : list tok) (acc : list (PyVal * PyVal))
  : frag (PyVal * list tok) :=
  match fuel with
  | O => Outside
  | S f =>
    match ts with
    | TRBrace :: r => Val (PDict acc, r)
    | _ =>
      fbind (p_expr f ts) (fun '(k, r) =>
        match r with
        | TColon :: r2 =>
            fbind (p_expr f r2) (fun '(v, r3) =>
              if negb (hashable k) then Fails else
              let acc' := dict_set acc k v in
              match r3 with
              | TComma :: TRBrace :: r4 => Val (PDict acc', r4)
              | TComma :: r4 => p_dict f r4 acc'
              | TRBrace :: r4 => Val (PDict acc', r4)
              | _ => Fails
              end)
        | TComma :: _ | TRBrace :: _ =>
            (* a set display, or a syntax error after a key: value pair *)
            match acc with [] => Outside | _ => Fails end
        | _ => Fails
        end)
    end
  end.

Fixpoint lstrip_sp_tab (s : string) : string :=
  match s with
  | String c r => if (code c =? 32) || (code c =? 9) then lstrip_sp_tab r else s
  | EmptyString => EmptyString
  end.

Definition is_nl (t : tok) : bool := match t with TNL => true | _ => false end.

Fixpoint drop_nl (ts : list tok) : list tok :=
  match ts with TNL :: r => drop_nl r | _ => ts end.

(** [ast.literal_eval(s)]: [s.lstrip(' \t')] is parsed in eval mode (one
    logical line, blank lines around it) and the tree converted *)
Definition lit_frag (s : string) : frag PyVal :=
  let s1 := lstrip_sp_tab s in
  fbind (lex (S (String.length s1)) 0 false s1) (fun ts =>
    let ts1 := drop_nl ts in
    fbind (p_expr (S (length ts1)) ts1) (fun '(v, rest) =>
      if forallb is_nl rest then Val v
      else match rest with
           | TComma :: _ => Outside   (* a tuple *)
           | _ => Fails
           end)).

End Lit.

(** [ast.literal_eval] as the parser calls it: exact wherever
    [Lit.lit_frag] is not [Outside], which every use below checks. *)
Definition literal_eval (s : string) : option PyVal :=
  match Lit.lit_frag s with Val v => Some v | _ => None end.

(** ** Report Date derivation: [datetime.strptime(value, '%d%m%Y')] *)

Module Strptime.
Local Open Scope nat_scope.

Record Date := { year : Z; month : Z; day : Z }.

Definition digit_of (c : ascii) : option Z :=
  if Lit.is_digit c then Some (Z.of_nat (Lit.code c - 48)) else None.

Definition dig_in (lo hi : Z) (c : ascii) : option Z :=
  match digit_of c with
  | Some v => if (lo <=? v)%Z && (v <=? hi)%Z then Some v else None
  | None => None
  end.

Definition sp (c : ascii) : bool := Lit.code c =? 32.

(** one alternative of two characters: first in [a1], second in [a2] *)
Definition two (a1 a2 : ascii -> option Z) (s : string) : list (Z * string) :=
  match s with
  | String c1 (String c2 r) =>
      match a1 c1, a2 c2 with
      | Some x, Some y => [((10 * x + y)%Z, r)]
      | _, _ => []
      end
  | _ => []
  end.

Definition one (a : ascii -> option Z) (s : string) : list (Z * string) :=
  match s with
  | String c r => match a c with Some x => [(x, r)] | None => [] end
  | _ => []
  end.

(** [(?P<d>3[01]|[12]\d|0[1-9]|[1-9]| [1-9])], alternatives in order *)
Definition re_d (s : string) : list (Z * string) :=
  two (dig_in 3 3) (dig_in 0 1) s ++ two (dig_in 1 2) digit_of s
  ++ two (dig_in 0 0) (dig_in 1 9) s ++ one (dig_in 1 9) s
  ++ match s with
     | String c r => if sp c then one (dig_in 1 9) r else []
     | _ => []
     end.

(** [(?P<m>1[0-2]|0[1-9]|[1-9])] *)
Definition re_m (s : string) : list (Z * string) :=
  two (dig_in 1 1) (dig_in 0 2) s ++ two (dig_in 0 0) (dig_in 1 9) s
  ++ one (dig_in 1 9) s.

(** [(?P<Y>\d\d\d\d)] *)
Definition re_Y (s : string) : list (Z * string) :=
  match s with
  | String a (String b (String c (String d r))) =>
      match digit_of a, digit_of b, digit_of c, digit_of d with
      | Some w, Some x, Some y, Some z =>
          [((1000 * w + 100 * x + 10 * y + z)%Z, r)]
      | _, _, _, _ => []
      end
  | _ => []
  end.

(** every match of the whole pattern, in backtracking order: the first one
    is what [re.match] returns *)
Definition matches (s : string) : list (Z * Z * Z * string) :=
  flat_map (fun '(d, r1) =>
    flat_map (fun '(m, r2) =>
      map (fun '(y, r3) => (d, m, y, r3)) (re_Y r2)) (re_m r1)) (re_d s).

Definition is_leap (y : Z) : bool :=
  (Z.eqb (y mod 4) 0 && negb (Z.eqb (y mod 100) 0)) || Z.eqb (y mod 400) 0.

Definition days_in_month (y m : Z) : Z :=
  if Z.eqb m 2 then (if is_leap y then 29 else 28)
  else if Z.eqb m 4 || Z.eqb m 6 || Z.eqb m 9 || Z.eqb m 11 then 30
  else 31.

(** [_strptime]: the first match must reach the end of the input, then
    [datetime_date(year, month, day)] checks the date *)
Definition strptime_dmY (data : string) : result Date :=
  match matches data with
  | [] => Raise (ValueError "time data does not match format '%d%m%Y'")
  | (d, m, y, rest) :: _ =>
      match rest with
      | String _ _ => Raise (ValueError "unconverted data remains")
      | EmptyString =>
          if (1 <=? y)%Z && (1 <=? m)%Z && (m <=? 12)%Z
             && (1 <=? d)%Z && (d <=? days_in_month y m)%Z
          then Ok {| year := y; month := m; day := d |}
          else Raise (ValueError "day is out of range for month")
      end
  end.

End Strptime.
Import Strptime.

(** [value] of [df['file_name'].str.replace('.pdf', '')] (pandas 2: a
    literal, not a regex, replacement) parsed by [strptime] *)
Definition report_date (file_name : string) : result Date :=
  strptime_dmY (PyStr.replace file_name ".pdf" "").

(** ** Dataset Assembler: the DataFrame steps of [run] *)

Module Assembler.

(** one parsed record: a dict with string keys *)
Definition Row := list (string * PyVal).

Definition has_key (k : string) (r : Row) : bool :=
  existsb (fun kv => String.eqb (fst kv) k) r.

Definition lookup (k : string) (r : Row) : option PyVal :=
  match find (fun kv => String.eqb (fst kv) k) r with
  | Some (_, v) => Some v
  | None => None
  end.

Definition remove_key (k : string) (r : Row) : Row :=
  filter (fun kv => negb (String.eqb (fst kv) k)) r.

(** a column of the concatenated frame: some record has the key *)
Definition has_col (k : string) (rows : list Row) : bool :=
  existsb (has_key k) rows.

Definition date_ltb (a b : Date) : bool :=
  (year a <? year b)%Z
  || (Z.eqb (year a) (year b) && ((month a <? month b)%Z
       || (Z.eqb (month a) (month b) && (day a <? day b)%Z))).

Definition date_leb (a b : Date) : bool := negb (date_ltb b a).

(** [df.sort_values(['Report Date'])]: numpy orders rows of equal date
    arbitrarily; this insertion sort fixes one order, and the date column
    it produces is the same for every order *)
Fixpoint insert_row (x : Row * Date) (l : list (Row * Date)) : list (Row * Date) :=
  match l with
  | [] => [x]
  | y :: r => if date_leb (snd x) (snd y) then x :: y :: r else y :: insert_row x r
  end.

Fixpoint sort_values (l : list (Row * Date)) : list (Row * Date) :=
  match l with
  | [] => []
  | x :: r => insert_row x (sort_values r)
  end.

(** the [for value in ...] loop: a missing or non-string [file_name] is
    NaN after [.str.replace], and [strptime(NaN)] raises [TypeError] *)
Fixpoint derive_dates (rows : list Row) : result (list Date) :=
  match rows with
  | [] => Ok []
  | r :: rest =>
      d <- match lookup "file_name" r with
           | Some (PStr fn) => report_date fn
           | _ => Raise TypeError
           end ;;
      ds <- derive_dates rest ;;
      Ok (d :: ds)
  end.

(** [pd.concat((DataFrame(dipd), DataFrame(rexp))).reset_index()
    .drop('index', axis=1).drop('level_0', axis=1)]: [reset_index] inserts
    a column named [index], or [level_0] when an [index] column exists, and
    raises [ValueError] when that name is taken too; [drop('index')] then
    removes the inserted or the original [index] column, and
    [drop('level_0')] the inserted or the original [level_0] column,
    raising [KeyError] when there is none *)
Definition reset_drop (rows : list Row) : result (list Row) :=
  let col := if has_col "index" rows then "level_0" else "index" in
  if has_col col rows
  then Raise (ValueError "cannot insert level_0, already exists")
  else
    let rows1 := map (remove_key "index") rows in
    if String.eqb col "level_0" || has_col "level_0" rows1
    then Ok (map (remove_key "level_0") rows1)
    else Raise (KeyError "level_0").

(** the DataFrame steps of [run]: the concatenation and the drops, the
    dates ([df['file_name']] raises [KeyError] without that column), the
    new [Report Date] column and the sort *)
Definition assemble (parsed_dipd parsed_rexp : list Row)
  : result (list (Row * Date)) :=
  rows1 <- reset_drop (app parsed_dipd parsed_rexp) ;;
  if negb (has_col "file_name" rows1) then Raise (KeyError "file_name")
  else
    dates <- derive_dates rows1 ;;
    Ok (sort_values (combine (map (remove_key "Report Date") rows1) dates)).

Definition report_dates (tbl : list (Row * Date)) : list Date := map snd tbl.

End Assembler.

(** ** Dataset Validator: [validate_data_structure] in [app.py] *)

Module Validator.

(** what [pd.read_csv(file_path)] yields, as far as the checks look at it *)
Record Frame := {
  columns : list string;
  nrows : nat;
  simbol_cells : list (option string);   (* [df['Simbol']]; [None] is NaN *)
  is_numeric_dtype : string -> bool;     (* [pd.api.types.is_numeric_dtype] *)
  report_date_parses : bool }.           (* [pd.to_datetime] does not raise *)

Inductive Reason :=
| DataEmpty                               (* "Data file is empty" *)
| MissingColumns (cols : list string)     (* "Missing required columns: ..." *)
| InvalidCompanies (found : list (option string))
| NotNumeric (col : string)               (* "Column '...' should be numeric" *)
| BadDateFormat                           (* "Report Date column has invalid date format" *)
| InsufficientRecords                     (* "Insufficient data records ..." *)
| ReadError.                              (* "Error reading data file: ..." *)

Definition required_columns : list string :=
  ["Simbol"; "file_name"; "Revenue"; "Cost of Goods Sold (COGS)";
   "Gross Profit"; "Operating Expenses"; "Operating Income";
   "Net Income"; "Report Date"].

Definition numeric_columns : list string :=
  ["Revenue"; "Cost of Goods Sold (COGS)"; "Gross Profit";
   "Operating Expenses"; "Operating Income"; "Net Income"].

Definition valid_companies : list string := ["REXP"; "DIPD"].

Definition mem (x : string) (l : list string) : bool := existsb (String.eqb x) l.

(** [required_columns - set(df.columns)] (a set: its printing order is
    Python's, here the order of [required_columns]) *)
Definition missing_columns (df : Frame) : list string :=
  filter (fun c => negb (mem c (columns df))) required_columns.

Definition cell_valid (c : option string) : bool :=
  match c with Some s => mem s valid_companies | None => false end.

Definition cell_eqb (a b : option string) : bool :=
  match a, b with
  | Some x, Some y => String.eqb x y
  | None, None => true
  | _, _ => false
  end.

Fixpoint dedup (l : list (option string)) : list (option string) :=
  match l with
  | [] => []
  | x :: r => x :: filter (fun y => negb (cell_eqb x y)) (dedup r)
  end.

(** [actual_companies - valid_companies] *)
Definition invalid_companies (df : Frame) : list (option string) :=
  filter (fun c => negb (cell_valid c)) (dedup (simbol_cells df)).

Definition first_non_numeric (df : Frame) : option string :=
  find (fun col => negb (is_numeric_dtype df col)) numeric_columns.

Definition validate_data_structure (read : option Frame) : bool * option Reason :=
  match read with
  | None => (false, Some ReadError)
  | Some df =>
      if Nat.eqb (nrows df) 0 then (false, Some DataEmpty)
      else match missing_columns df with
      | (_ :: _) as m => (false, Some (MissingColumns m))
      | [] =>
      match invalid_companies df with
      | (_ :: _) as bad => (false, Some (InvalidCompanies bad))
      | [] =>
      match first_non_numeric df with
      | Some col => (false, Some (NotNumeric col))
      | None =>
      if negb (report_date_parses df) then (false, Some BadDateFormat)
      else if Nat.ltb (nrows df) 4 then (false, Some InsufficientRecords)
      else (true, None)
      end end end
  end.

End Validator.

(** ** The pipeline end to end: [LLMExtractionPipeline.run] *)

(** [pd.DataFrame(records)]: each parsed value is a dict whose keys become
    column names; a value of another shape ([None] here) gives a frame this
    development does not model *)
Definition to_row (v : PyVal) : option Assembler.Row :=
  match v with
  | PDict kvs =>
      fold_right (fun kv acc =>
        match kv, acc with
        | (PStr k, x), Some r => Some ((k, x) :: r)
        | _, _ => None
        end) (Some []) kvs
  | _ => None
  end.

Fixpoint to_rows (vs : list PyVal) : option (list Assembler.Row) :=
  match vs with
  | [] => Some []
  | v :: rest =>
      match to_row v, to_rows rest with
      | Some r, Some rs => Some (r :: rs)
      | _, _ => None
      end
  end.

(** [run] up to [df.to_csv]: the requests sent to the model (DIPD's, then
    REXP's), the text printed by the parser, and the table written;
    [None] when a parsed value is not a dict with string keys.  [llm] is
    the model, [le] is [ast.literal_eval] and [sys_prompt] is
    [SYS_EXTRACTION_PROMPT]; the timestamps printed are left out. *)
Definition run (raw : RawDir) (llm : string -> string -> string)
    (le : string -> option PyVal) (sys_prompt : string)
  : list string * list string * option (result (list (Assembler.Row * Date))) :=
  match extract_pl_pages raw "REXP" with
  | Raise e => ([], [], Some (Raise e))
  | Ok pl_pages_rexp =>
  match extract_pl_pages raw "DIPD" with
  | Raise e => ([], [], Some (Raise e))
  | Ok pl_pages_dipd =>
  let '(sent_dipd, r_dipd) := llm_data_extraction llm pl_pages_dipd sys_prompt in
  match r_dipd with
  | Raise e => (sent_dipd, [], Some (Raise e))
  | Ok responses_dipd =>
  let '(sent_rexp, r_rexp) := llm_data_extraction llm pl_pages_rexp sys_prompt in
  let sent := app sent_dipd sent_rexp in
  match r_rexp with
  | Raise e => (sent, [], Some (Raise e))
  | Ok responses_rexp =>
  let '(out_dipd, p_dipd) := parse_llm_extraction_response le responses_dipd in
  match p_dipd with
  | Raise e => (sent, out_dipd, Some (Raise e))
  | Ok parsed_dipd_data =>
  let '(out_rexp, p_rexp) := parse_llm_extraction_response le responses_rexp in
  let out := app out_dipd out_rexp in
  match p_rexp with
  | Raise e => (sent, out, Some (Raise e))
  | Ok parsed_rexp_data =>
  match to_rows parsed_dipd_data, to_rows parsed_rexp_data with
  | Some dipd, Some rexp => (sent, out, Some (Assembler.assemble dipd rexp))
  | _, _ => (sent, out, None)
  end end end end end end end.

(** ** The entry point: [get_user_confirmation] and [main] in [app.py] *)

Module App.

(** what [input()] meets: a line typed (without its newline) or Ctrl-C;
    the end of the list is the end of the input, where [input()] raises
    [EOFError] *)
Inductive InputEvent :=
| Line (s : string)
| Interrupt.

(** [str.isspace] on the characters below 256 *)
Definition is_space (c : ascii) : bool :=
  let n := nat_of_ascii c in
  ((9 <=? n) && (n <=? 13))%nat || ((28 <=? n) && (n <=? 32))%nat
  || (n =? 133)%nat || (n =? 160)%nat.

Fixpoint lstrip (s : string) : string :=
  match s with
  | EmptyString => EmptyString
  | String c r => if is_space c then lstrip r else s
  end.

Fixpoint rstrip (s : string) : string :=
  match s with
  | EmptyString => EmptyString
  | String c r =>
      match rstrip r with
      | EmptyString => if is_space c then EmptyString else String c EmptyString
      | r' => String c r'
      end
  end.

(** [s.strip()] *)
Definition strip (s : string) : string := rstrip (lstrip s).

(** [s.upper()] on ASCII letters; upper-casing a letter above 127 never
    yields one of the letters of Y, YES, N or NO, the only texts compared
    after it *)
Definition upper_char (c : ascii) : ascii :=
  let n := nat_of_ascii c in
  if ((97 <=? n) && (n <=? 122))%nat then ascii_of_nat (n - 32) else c.

Fixpoint upper (s : string) : string :=
  match s with
  | EmptyString => EmptyString
  | String c r => String (upper_char c) (upper r)
  end.

Definition in_list (s : string) (l : list string) : bool :=
  existsb (String.eqb s) l.

(** how [get_user_confirmation] ends: its return value, [sys.exit(code)],
    or the [EOFError] of [input()] it does not catch *)
Inductive Confirm :=
| Confirmed (b : bool)
| Exited (code : nat)
| EOFRaised.

(** the loop; the result carries what was written (prompts and printed
    lines, without their newlines), the outcome and the input left *)
Fixpoint get_user_confirmation (message : string) (inputs : list InputEvent)
  : list string * Confirm * list InputEvent :=
  let prompt := message ++ " (Y/N): " in
  match inputs with
  | [] => ([prompt], EOFRaised, [])
  | Interrupt :: rest =>
      ([prompt; nl ++ nl ++ "Operation cancelled by user."], Exited 0, rest)
  | Line line :: rest =>
      let response := upper (strip line) in
      if in_list response ["Y"; "YES"] then ([prompt], Confirmed true, rest)
      else if in_list response ["N"; "NO"] then ([prompt], Confirmed false, rest)
      else
        let '(out, c, rest') := get_user_confirmation message rest in
        (prompt :: "Please enter Y or N" :: out, c, rest')
  end.

(** [check_data_exists]: [os.path.exists(p) and os.path.getsize(p) > 0] *)
Definition check_data_exists (exists_ : bool) (size : nat) : bool :=
  exists_ && (0 <? size)%nat.

(** the parsed command line *)
Record Args := { web : bool; cli : bool; force : bool }.

(** what [main] finds in the file system and the processes it starts:
    the [n]-th call of [pipeline.run()] completes when [pipeline_ok n]
    (an import or run failure otherwise), and the [n]-th
    [validate_data_structure] reads [read_csv n] *)
Record Env := {
  makedirs_ok : bool;          (* os.makedirs(processed_dir) *)
  data_file_exists : bool;     (* os.path.exists(financial_data) at start *)
  data_file_size : nat;        (* os.path.getsize(financial_data) at start *)
  script_exists : bool;        (* os.path.exists(pipeline_script) *)
  raw_dir_exists : bool;       (* os.path.exists(raw_dir) *)
  data_file_at_delete : bool;  (* os.path.exists(financial_data) before os.remove *)
  pipeline_ok : nat -> bool;
  read_csv : nat -> option Validator.Frame;
  inputs : list InputEvent }.

(** the effects of [main] that matter, in order *)
Inductive Event :=
| Asked (message : string) (answer : Confirm)
| RanPipeline
| Validated (ok : bool)
| Deleted.

Inductive Mode := Web | Cli.

Inductive Outcome :=
| Launched (m : Mode)      (* launch_web_app / launch_cli_app started *)
| Exit (code : nat).       (* sys.exit(code), also from the top-level handler *)

Definition run_msg : string := "Do you want to run the data extraction pipeline?".
Definition reextract_msg : string := "Delete invalid data and re-extract?".

(** [run_extraction_pipeline(pipeline_path)] as the [n]-th attempt:
    [False] at once when the script is missing, else whether [run]
    completed; the event list says whether [pipeline.run()] was called *)
Definition run_extraction_pipeline (env : Env) (n : nat) : list Event * bool :=
  if script_exists env then ([RanPipeline], pipeline_ok env n) else ([], false).

(** a confirmation inside [main]: an [EOFError] reaches the top-level
    [except Exception] and exits with 1; [sys.exit(0)] exits with 0 *)
Definition ask (message : string) (ins : list InputEvent)
  : Event * (bool + nat) * list InputEvent :=
  let '(_, c, rest) := get_user_confirmation message ins in
  (Asked message c,
   match c with
   | Confirmed b => inl b
   | Exited code => inr code
   | EOFRaised => inr 1
   end, rest).

(** Step 3; [main] returning without a mode would end the program with 0 *)
Definition launch (args : Args) : Outcome :=
  if cli args then Launched Cli
  else if web args then Launched Web
  else Exit 0.

(** Step 2 onwards: validate, and on failure offer to delete and re-extract
    ([runs] pipeline runs happened before) *)
Definition validate_step (args : Args) (env : Env) (runs : nat)
    (ins : list InputEvent) : list Event * Outcome :=
  let '(is_valid, _) := Validator.validate_data_structure (read_csv env 0) in
  if is_valid then ([Validated true], launch args)
  else
    let '(ev, a, ins') := ask reextract_msg ins in
    match a with
    | inr code => ([Validated false; ev], Exit code)
    | inl false => ([Validated false; ev], Exit 1)
    | inl true =>
        let del := if data_file_at_delete env then [Deleted] else [] in
        let '(evs, success) := run_extraction_pipeline env runs in
        let pre := Validated false :: ev :: app del evs in
        if negb success then (pre, Exit 1)
        else
          let '(is_valid2, _) :=
            Validator.validate_data_structure (read_csv env 1) in
          if is_valid2 then (app pre [Validated true], launch args)
          else (app pre [Validated false], Exit 1)
    end.

Definition main (args : Args) (env : Env) : list Event * Outcome :=
  let args := {| web := if negb (cli args) then true else web args;
                 cli := cli args; force := force args |} in
  if negb (makedirs_ok env) then ([], Exit 1)
  else
    let data_exists :=
      if force args then false
      else check_data_exists (data_file_exists env) (data_file_size env) in
    if data_exists then validate_step args env 0 (inputs env)
    else if negb (script_exists env) then ([], Exit 1)
    else if negb (raw_dir_exists env) then ([], Exit 1)
    else
      let '(ev, a, ins') := ask run_msg (inputs env) in
      match a with
      | inr code => ([ev], Exit code)
      | inl false => ([ev], Exit 0)
      | inl true =>
          let '(evs, success) := run_extraction_pipeline env 0 in
          if negb success then (ev :: evs, Exit 1)
          else
            let '(evs2, o) := validate_step args env 1 ins' in
            (ev :: app evs evs2, o)
      end.

End App.

(** ** Observations used in the statements *)

(** the pages of one document that contain the marker *)
Definition matched_pages (marker : string) (d : Document) : list string :=
  filter (PyStr.contains marker) (doc_pages d).

(** the last character of a string *)
Fixpoint last_char (s : string) : option ascii :=
  match s with
  | EmptyString => None
  | String c EmptyString => Some c
  | String _ r => last_char r
  end.

(** the fenced form of a body *)
Definition fence (body : string) : string := "```json" ++ body ++ "```".

(** the character of a decimal digit *)
Definition digit_char (n : nat) : ascii := ascii_of_nat (48 + n).

Definition digit_or_space (c : ascii) : bool := Lit.is_digit c || Strptime.sp c.

Fixpoint all_chars (p : ascii -> bool) (s : string) : bool :=
  match s with
  | EmptyString => true
  | String c r => p c && all_chars p r
  end.

Definition is_ok {A} (r : result A) : bool :=
  match r with Ok _ => true | Raise _ => false end.

(** the two supported symbols with their markers *)
Definition supported (simbol m : string) : Prop :=
  (simbol = "REXP" /\ m = "Consolidated Income Statements") \/
  (simbol = "DIPD" /\ m = "STATEMENT OF PROFIT OR LOSS").

(** a raw directory holding only REXP documents *)
Definition rexp_only (docs : list Document) : RawDir :=
  fun s => if String.eqb s "REXP" then Some docs else None.

(** a REXP report whose statement runs over two pages with the marker *)
Definition rexp_two_pages : Document :=
  {| doc_path := "C:\proj\data\raw\\REXP\30062022.pdf";
     doc_pages := ["Directors report";
                   "Consolidated Income Statements Revenue 1,000";
                   "Consolidated Income Statements (continued)"] |}.

(** a REXP report with the marker on exactly one page *)
Definition rexp_one_page : Document :=
  {| doc_path := "C:\proj\data\raw\\REXP\31122022.pdf";
     doc_pages := ["Directors report";
                   "Consolidated Income Statements Revenue 2,000"] |}.

(** a REXP report without the marker *)
Definition rexp_no_page : Document :=
  {| doc_path := "C:\proj\data\raw\\REXP\31032023.pdf";
     doc_pages := ["Statement of Financial Position"] |}.

(** some occurrence of [old] starts inside [u] in [u ++ v] *)
Fixpoint occurs_before (old u v : string) : bool :=
  match u with
  | EmptyString => false
  | String _ u' => prefix old (u ++ v) || occurs_before old u' v
  end.

(** a double-quoted string, written without doubled quotes *)
Definition q (s : string) : string := dq ++ s ++ dq.

(** a reply with [true] in its JSON body *)
Definition json_true_body : string := "{" ++ q "Gross Profit" ++ ": true}".

(** a reply whose file name contains [json] *)
Definition json_name_body : string :=
  "{" ++ q "Simbol" ++ ": " ++ q "REXP" ++ ", " ++ q "file_name" ++ ": "
  ++ q "30062022json.pdf" ++ ", " ++ q "Revenue" ++ ": 1000}".

(** eight decimal digits, as a filename's date portion *)
Definition digits8 (d1 d2 m1 m2 y1 y2 y3 y4 : nat) : string :=
  String (digit_char d1) (String (digit_char d2) (String (digit_char m1)
    (String (digit_char m2) (String (digit_char y1) (String (digit_char y2)
      (String (digit_char y3) (String (digit_char y4) EmptyString))))))).

(** a parsed record with the [index] key [reset_index] relies on *)
Definition record (simbol fn : string) (i : Z) : Assembler.Row :=
  [("index", PInt i); ("Simbol", PStr simbol); ("file_name", PStr fn);
   ("Revenue", PInt 1000)].

Definition dipd_records : list Assembler.Row :=
  [record "DIPD" "31032023.pdf" 0; record "DIPD" "31122022.pdf" 1].

Definition rexp_records : list Assembler.Row :=
  [record "REXP" "30062022.pdf" 0].

(** a CSV with a [Simbol] header and no data row *)
Definition header_only_frame : Validator.Frame :=
  {| Validator.columns := ["Simbol"]; Validator.nrows := 0;
     Validator.simbol_cells := [];
     Validator.is_numeric_dtype := fun _ => false;
     Validator.report_date_parses := true |}.

(** sorted by date, the order [sort_values] produces *)
Definition row_leb (x y : Assembler.Row * Date) : Prop :=
  Assembler.date_leb (snd x) (snd y) = true.

(** what a regex piece matched is a prefix made of digits and spaces *)
Definition consumes (alts : string -> list (Z * string)) : Prop :=
  forall s v r, In (v, r) (alts s) ->
  exists p, s = p ++ r /\ all_chars digit_or_space p = true.

(** the answers [get_user_confirmation] accepts, once normalised *)
Definition answers : list string := ["Y"; "YES"; "N"; "NO"].

(** the events of [main] that start the pipeline, and the answers yes *)
Definition is_run (e : App.Event) : bool :=
  match e with App.RanPipeline => true | _ => false end.

Definition is_yes (e : App.Event) : bool :=
  match e with App.Asked _ (App.Confirmed true) => true | _ => false end.

(** an environment with a data file that fails validation, then passes it
    after the pipeline ran *)
Definition env_revalidate : App.Env :=
  {| App.makedirs_ok := true; App.data_file_exists := true; App.data_file_size := 10;
     App.script_exists := true; App.raw_dir_exists := true;
     App.data_file_at_delete := true; App.pipeline_ok := fun _ => true;
     App.read_csv := fun n => match n with
       | O => Some header_only_frame
       | _ => Some {| Validator.columns := Validator.required_columns;
                      Validator.nrows := 4;
                      Validator.simbol_cells := [Some "REXP"; Some "DIPD"];
                      Validator.is_numeric_dtype := fun _ => true;
                      Validator.report_date_parses := true |} end;
     App.inputs := [App.Line "y"] |}.

(** a record after [drop('index', axis=1).drop('level_0', axis=1)] *)
Definition drop_row (r : Assembler.Row) : Assembler.Row :=
  Assembler.remove_key "level_0" (Assembler.remove_key "index" r).

(** [main]'s events read from left to right, counting the answers yes
    and the pipeline runs so far, and whether the question to delete and
    re-extract got a yes: every run needs a yes that no earlier run used,
    and a deletion needs that question's yes *)
Fixpoint consent_scan (yes runs : nat) (reyes : bool) (evs : list App.Event) : bool :=
  match evs with
  | [] => true
  | App.RanPipeline :: r => Nat.ltb runs yes && consent_scan yes (S runs) reyes r
  | App.Deleted :: r => reyes && consent_scan yes runs reyes r
  | App.Asked m (App.Confirmed true) :: r =>
      consent_scan (S yes) runs (reyes || String.eqb m App.reextract_msg) r
  | _ :: r => consent_scan yes runs reyes r
  end.

(** * Properties *)

(** ** Page Locator *)

Lemma scan_pages_spec simbol ff m pages t :
  scan_pages simbol ff (Some m) pages t =
  Ok (Build_Target (t_index t)
        (t_simbol t ++ repeat simbol (length (filter (PyStr.contains m) pages)))
        (t_file_name t ++ repeat (trim_file_name simbol ff)
                                 (length (filter (PyStr.contains m) pages)))
        (t_target_page t ++ filter (PyStr.contains m) pages)).
Proof.
  revert t; induction pages as [|p ps IH]; intros t; simpl.
  - destruct t; simpl; rewrite !app_nil_r; reflexivity.
  - rewrite IH; destruct (PyStr.contains m p); simpl;
      rewrite <- ?app_assoc; reflexivity.
Qed.

Lemma scan_files_spec simbol m files i t :
  scan_files simbol (Some m) files i t =
  Ok (Build_Target (t_index t ++ seq i (length files))
        (t_simbol t ++ flat_map (fun d => repeat simbol (length (matched_pages m d))) files)
        (t_file_name t ++ flat_map (fun d => repeat (trim_file_name simbol (doc_path d))
                                                 (length (matched_pages m d))) files)
        (t_target_page t ++ flat_map (matched_pages m) files)).
Proof.
  revert i t; induction files as [|f fs IH]; intros i t; simpl.
  - destruct t; simpl; rewrite !app_nil_r; reflexivity.
  - rewrite scan_pages_spec; simpl; rewrite IH; simpl.
    unfold matched_pages; rewrite <- !app_assoc; reflexivity.
Qed.

Lemma extract_pl_pages_spec raw simbol m docs :
  map_page_simbol simbol = Some m -> raw simbol = Some docs ->
  extract_pl_pages raw simbol =
  Ok (Build_Target (seq 0 (length docs))
        (flat_map (fun d => repeat simbol (length (matched_pages m d))) docs)
        (flat_map (fun d => repeat (trim_file_name simbol (doc_path d))
                                   (length (matched_pages m d))) docs)
        (flat_map (matched_pages m) docs)).
Proof.
  intros Hm Hr; unfold extract_pl_pages, list_all_files; rewrite Hr; simpl.
  rewrite Hm, scan_files_spec; reflexivity.
Qed.

Lemma length_flat_map_repeat {A B} (f : A -> B) (g : A -> nat) (l : list A) :
  length (flat_map (fun d => repeat (f d) (g d)) l) = list_sum (map g l).
Proof.
  induction l as [|a l IH]; simpl; [reflexivity|].
  rewrite length_app, repeat_length, IH; reflexivity.
Qed.

Lemma length_flat_map_matched m l :
  length (flat_map (matched_pages m) l) =
  list_sum (map (fun d => length (matched_pages m d)) l).
Proof.
  induction l as [|a l IH]; simpl; [reflexivity|].
  rewrite length_app, IH; reflexivity.
Qed.

Lemma supported_marker simbol m :
  supported simbol m -> map_page_simbol simbol = Some m.
Proof. intros [[-> ->]|[-> ->]]; reflexivity. Qed.

(** C4: for both supported symbols the index list has one entry per
    document, [0 .. n-1], whatever the document matched, while the simbol,
    file_name and target_page lists have one entry per matched page; so
    the index list and the page lists can differ in length. *)
Theorem extract_pl_pages_index_per_document :
  (forall raw simbol m docs, supported simbol m -> raw simbol = Some docs ->
   exists t, extract_pl_pages raw simbol = Ok t /\
     t_index t = seq 0 (length docs) /\
     length (t_index t) = length docs /\
     length (t_simbol t) = list_sum (map (fun d => length (matched_pages m d)) docs) /\
     length (t_file_name t) = list_sum (map (fun d => length (matched_pages m d)) docs) /\
     length (t_target_page t) = list_sum (map (fun d => length (matched_pages m d)) docs)) /\
  (exists raw docs t, raw "REXP" = Some docs /\ extract_pl_pages raw "REXP" = Ok t /\
     length (t_index t) <> length (t_target_page t)).
Proof.
  split.
  - intros raw simbol m docs Hs Hr.
    rewrite (extract_pl_pages_spec raw simbol m docs (supported_marker _ _ Hs) Hr).
    eexists; split; [reflexivity|]; simpl.
    rewrite length_seq, !length_flat_map_repeat, length_flat_map_matched.
    repeat split; reflexivity.
  - exists (rexp_only [rexp_two_pages]), [rexp_two_pages].
    eexists; split; [reflexivity|]; split; [vm_compute; reflexivity|].
    vm_compute; discriminate.
Qed.

Lemma extract_pl_pages_index_per_document_witness :
  supported "REXP" "Consolidated Income Statements" /\
  rexp_only [rexp_two_pages; rexp_no_page] "REXP" = Some [rexp_two_pages; rexp_no_page] /\
  exists t, extract_pl_pages (rexp_only [rexp_two_pages; rexp_no_page]) "REXP" = Ok t /\
    t_index t = [0; 1] /\ length (t_target_page t) = 2.
Proof.
  assert (Hs : supported "REXP" "Consolidated Income Statements")
    by (left; split; reflexivity).
  split; [exact Hs|]; split; [reflexivity|].
  destruct (proj1 extract_pl_pages_index_per_document
              (rexp_only [rexp_two_pages; rexp_no_page]) "REXP"
              "Consolidated Income Statements" [rexp_two_pages; rexp_no_page]
              Hs eq_refl) as (t & Ht & Hi & _ & _ & _ & Hp).
  exists t; split; [exact Ht|]; split; [exact Hi|].
  rewrite Hp; vm_compute; reflexivity.
Defined.

(** C5: for both supported symbols the batch's pages are exactly the pages
    containing the symbol's marker, document by document and page by page,
    with repetitions kept: every such page is in the batch and every page
    of the batch has the marker. *)
Theorem extract_pl_pages_marker_pages raw simbol m docs :
  supported simbol m -> raw simbol = Some docs ->
  exists t, extract_pl_pages raw simbol = Ok t /\
    t_target_page t = flat_map (fun d => filter (PyStr.contains m) (doc_pages d)) docs /\
    (forall p, In p (t_target_page t) -> PyStr.contains m p = true) /\
    (forall d p, In d docs -> In p (doc_pages d) -> PyStr.contains m p = true ->
       In p (t_target_page t)) /\
    Forall (eq simbol) (t_simbol t).
Proof.
  intros Hs Hr.
  rewrite (extract_pl_pages_spec raw simbol m docs (supported_marker _ _ Hs) Hr).
  eexists; split; [reflexivity|]; simpl.
  split; [reflexivity|]; split; [|split].
  - intros p Hp; apply in_flat_map in Hp as (d & _ & Hp).
    unfold matched_pages in Hp; apply filter_In in Hp; tauto.
  - intros d p Hd Hp Hc; apply in_flat_map; exists d; split; [exact Hd|].
    apply filter_In; tauto.
  - apply Forall_forall; intros x Hx; apply in_flat_map in Hx as (d & _ & Hx).
    apply repeat_spec in Hx; congruence.
Qed.

Lemma extract_pl_pages_marker_pages_witness :
  exists t, extract_pl_pages (rexp_only [rexp_two_pages; rexp_no_page]) "REXP" = Ok t /\
    length (t_target_page t) = 2.
Proof.
  destruct (extract_pl_pages_marker_pages (rexp_only [rexp_two_pages; rexp_no_page])
              "REXP" "Consolidated Income Statements" [rexp_two_pages; rexp_no_page]
              (or_introl (conj eq_refl eq_refl)) eq_refl)
    as (t & Ht & Hp & _).
  exists t; split; [exact Ht|]; rewrite Hp; vm_compute; reflexivity.
Defined.

(** ** Extraction Client *)

Lemma build_fields_ok items i :
  Forall (fun kv => i < length (snd kv)) items ->
  exists s, build_fields items i = Ok s.
Proof.
  induction items as [|[k v] rest IH]; intros H; simpl; [eauto|].
  inversion H as [|? ? Hkv Hrest]; subst; simpl in Hkv.
  destruct (nth_error v i) eqn:E.
  - destruct (IH Hrest) as [s0 Hs]; rewrite Hs; simpl; eauto.
  - apply nth_error_None in E; lia.
Qed.

Lemma build_message_ok t i :
  i < length (t_index t) -> i < length (t_simbol t) ->
  i < length (t_file_name t) -> i < length (t_target_page t) ->
  exists s, build_message t i = Ok s.
Proof.
  intros H1 H2 H3 H4; unfold build_message.
  destruct (build_fields_ok (target_items t) i) as [s Hs].
  - unfold target_items; repeat constructor; simpl; rewrite ?length_map; assumption.
  - rewrite Hs; simpl; eauto.
Qed.

Lemma extraction_loop_ok llm t sys idx :
  (forall i, In i idx -> exists s, build_message t i = Ok s) ->
  exists reqs rs, extraction_loop llm t sys idx = (reqs, Ok rs) /\
    length reqs = length idx /\ length rs = length idx.
Proof.
  induction idx as [|i idx IH]; intros H; simpl.
  - exists [], []; auto.
  - destruct (H i (or_introl eq_refl)) as [s Hs]; rewrite Hs.
    destruct IH as (reqs & rs & E & L1 & L2); [intros j Hj; apply H; now right|].
    rewrite E; exists (s :: reqs), (llm sys s :: rs); simpl; auto.
Qed.

Lemma list_sum_ones {A} (f : A -> nat) (l : list A) :
  Forall (fun x => f x = 1) l -> list_sum (map f l) = length l.
Proof.
  induction 1 as [|x l Hx _ IH]; simpl; [reflexivity|]; rewrite Hx, IH; reflexivity.
Qed.

(** C9: [llm_data_extraction] walks the index list (one entry per
    document) and reads the simbol, file_name and target_page lists at the
    same position.  When every document has exactly one page with the
    marker, every read is in bounds and one request per document is sent;
    for a document without such a page, the read fails with [IndexError]. *)
Theorem llm_data_extraction_index_alignment :
  (forall raw simbol m docs llm sys_prompt,
     supported simbol m -> raw simbol = Some docs ->
     Forall (fun d => length (matched_pages m d) = 1) docs ->
     exists t reqs rs, extract_pl_pages raw simbol = Ok t /\
       llm_data_extraction llm t sys_prompt = (reqs, Ok rs) /\
       length reqs = length docs /\ length rs = length docs) /\
  (exists raw docs t, raw "REXP" = Some docs /\
     Exists (fun d => matched_pages "Consolidated Income Statements" d = []) docs /\
     extract_pl_pages raw "REXP" = Ok t /\
     forall llm sys_prompt, snd (llm_data_extraction llm t sys_prompt) = Raise IndexError).
Proof.
  split.
  - intros raw simbol m docs llm sys Hs Hr Hone.
    rewrite (extract_pl_pages_spec raw simbol m docs (supported_marker _ _ Hs) Hr).
    set (t := Build_Target _ _ _ _).
    destruct (extraction_loop_ok llm t sys (seq 0 (length (t_index t))))
      as (reqs & rs & E & L1 & L2).
    + intros i Hi; apply in_seq in Hi.
      assert (Hn : list_sum (map (fun d => length (matched_pages m d)) docs) = length docs)
        by (apply list_sum_ones; exact Hone).
      apply build_message_ok; subst t; simpl in *;
        rewrite ?length_seq, ?length_flat_map_repeat, ?length_flat_map_matched, ?Hn;
        rewrite ?length_seq in Hi; lia.
    + exists t, reqs, rs; split; [reflexivity|]; split; [exact E|].
      subst t; simpl in *; rewrite L1, L2, !length_seq; split; reflexivity.
  - exists (rexp_only [rexp_no_page]), [rexp_no_page].
    eexists; split; [reflexivity|]; split; [constructor; reflexivity|].
    split; [reflexivity|]; intros llm sys; reflexivity.
Qed.

Lemma llm_data_extraction_index_alignment_witness :
  exists t reqs rs,
    extract_pl_pages (rexp_only [rexp_one_page; rexp_one_page]) "REXP" = Ok t /\
    llm_data_extraction (fun _ _ => "{}") t "" = (reqs, Ok rs) /\ length reqs = 2.
Proof.
  destruct (proj1 llm_data_extraction_index_alignment
              (rexp_only [rexp_one_page; rexp_one_page]) "REXP"
              "Consolidated Income Statements" [rexp_one_page; rexp_one_page]
              (fun _ _ => "{}") ""
              (or_introl (conj eq_refl eq_refl)) eq_refl
              ltac:(repeat constructor))
    as (t & reqs & rs & Ht & E & L & _).
  exists t, reqs, rs; split; [exact Ht|]; split; [exact E|]; exact L.
Defined.

(** C1 (evaluated at a failing input): one REXP document whose statement
    spans two pages with the marker yields a batch of two pages, but
    [llm_data_extraction] sends a single request, one per index entry. *)
Theorem llm_data_extraction_requests_two_page_document :
  forall llm sys_prompt, exists t,
    extract_pl_pages (rexp_only [rexp_two_pages]) "REXP" = Ok t /\
    length (t_target_page t) = 2 /\
    t_file_name t = ["30062022.pdf"; "30062022.pdf"] /\
    length (fst (llm_data_extraction llm t sys_prompt)) = 1.
Proof.
  intros llm sys; eexists; split; [reflexivity|].
  split; [vm_compute; reflexivity|]; split; [vm_compute; reflexivity|].
  reflexivity.
Qed.

(** ** Response Parser *)

(** C6: when the stripped text of some response is not a literal, the
    parser prints the stripped text of the first such response and raises;
    it returns no list of records at all. *)
Theorem parse_llm_extraction_response_raises
    (le : string -> option PyVal) (responses : list string) :
  (exists r, In r responses /\ le (strip_fences r) = None) ->
  exists r0, In r0 responses /\ le (strip_fences r0) = None /\
    parse_llm_extraction_response le responses =
      ([strip_fences r0], Raise LiteralError).
Proof.
  induction responses as [|r rs IH]; intros (x & Hx & Hn); [destruct Hx|].
  simpl. destruct (le (strip_fences r)) as [v|] eqn:E.
  - destruct Hx as [<-|Hx]; [congruence|].
    destruct IH as (r0 & Hin & Hr0 & Hp); [eauto|].
    exists r0; split; [now right|]; split; [exact Hr0|].
    rewrite Hp; reflexivity.
  - exists r; split; [now left|]; split; [exact E|reflexivity].
Qed.

Lemma parse_llm_extraction_response_raises_witness :
  Lit.lit_frag (strip_fences "Here is the data") = Fails /\
  exists r0, In r0 [fence (nl ++ json_name_body ++ nl); "Here is the data"] /\
    parse_llm_extraction_response literal_eval
      [fence (nl ++ json_name_body ++ nl); "Here is the data"] =
      ([strip_fences r0], Raise LiteralError).
Proof.
  split; [vm_compute; reflexivity|].
  destruct (parse_llm_extraction_response_raises literal_eval
              [fence (nl ++ json_name_body ++ nl); "Here is the data"])
    as (r0 & Hin & _ & Hp).
  - exists "Here is the data"; split; [right; left; reflexivity|].
    vm_compute; reflexivity.
  - exists r0; split; [exact Hin|exact Hp].
Defined.

Lemma str_app_assoc (a b c : string) : (a ++ b) ++ c = a ++ (b ++ c).
Proof. induction a as [|x a IH]; simpl; [reflexivity|]; rewrite IH; reflexivity. Qed.

Lemma str_app_nil (a : string) : a ++ "" = a.
Proof. induction a as [|x a IH]; simpl; [reflexivity|]; rewrite IH; reflexivity. Qed.

Lemma str_app_nil_l (a : string) : "" ++ a = a.
Proof. reflexivity. Qed.

Lemma replace_aux_skipn old new o x :
  PyStr.replace_aux old new (String.length o) (o ++ x) = PyStr.replace_aux old new 0 x.
Proof. induction o as [|c o IH]; [reflexivity|exact IH]. Qed.

Lemma prefix_app_self p x : prefix p (p ++ x) = true.
Proof.
  induction p as [|c p IH]; [destruct x; reflexivity|].
  simpl; destruct (ascii_dec c c) as [_|n]; [exact IH|contradiction].
Qed.

Lemma replace_aux_skip old new x :
  old <> "" ->
  PyStr.replace_aux old new 0 (old ++ x) = new ++ PyStr.replace_aux old new 0 x.
Proof.
  destruct old as [|c o]; [congruence|]; intros _.
  assert (Hp : prefix (String c o) (String c (o ++ x)) = true)
    by exact (prefix_app_self (String c o) x).
  change (String c o ++ x) with (String c (o ++ x)).
  cbn [PyStr.replace_aux]; rewrite Hp.
  replace (String.length (String c o) - 1) with (String.length o) by (simpl; lia).
  rewrite replace_aux_skipn; reflexivity.
Qed.

Lemma replace_aux_occurs_before old new u v :
  occurs_before old u v = false ->
  PyStr.replace_aux old new 0 (u ++ v) = u ++ PyStr.replace_aux old new 0 v.
Proof.
  induction u as [|c u IH]; simpl; [reflexivity|].
  intros H; apply orb_false_iff in H as [H1 H2].
  rewrite H1, IH by exact H2; reflexivity.
Qed.

Lemma occurs_before_app old u1 u2 v :
  occurs_before old (u1 ++ u2) v =
  occurs_before old u1 (u2 ++ v) || occurs_before old u2 v.
Proof.
  induction u1 as [|c u1 IH]; simpl; [reflexivity|].
  rewrite IH, str_app_assoc, orb_assoc; reflexivity.
Qed.

Lemma occurs_before_nil old u :
  PyStr.contains old u = false -> occurs_before old u "" = false.
Proof.
  induction u as [|c u IH]; simpl; [reflexivity|].
  intros H; apply orb_false_iff in H as [H1 H2].
  rewrite str_app_nil, H1, IH by exact H2; reflexivity.
Qed.

Lemma replace_aux_absent old new u :
  PyStr.contains old u = false -> PyStr.replace_aux old new 0 u = u.
Proof.
  intros H; rewrite <- (str_app_nil u) at 1.
  rewrite replace_aux_occurs_before by (apply occurs_before_nil, H).
  destruct old; simpl; rewrite str_app_nil; reflexivity.
Qed.

Lemma prefix_cons a s1 b s2 :
  prefix (String a s1) (String b s2) =
  if ascii_dec a b then prefix s1 s2 else false.
Proof. reflexivity. Qed.

Lemma prefix_backticks_cons c r :
  prefix "```" (String c r) =
  Ascii.eqb c "`"%char && prefix "``" r.
Proof.
  rewrite prefix_cons; destruct (ascii_dec "`" c) as [<-|Hc]; [reflexivity|].
  destruct (Ascii.eqb_spec c "`"%char); [subst; contradiction|reflexivity].
Qed.

Lemma occurs_before_backticks (u : string) :
  PyStr.contains "```" u = false -> last_char u <> Some "`"%char ->
  occurs_before "```" u "```" = false.
Proof.
  induction u as [|c u IH]; intros Hc Hl; [reflexivity|].
  change (PyStr.contains "```" (String c u))
    with (prefix "```" (String c u) || PyStr.contains "```" u) in Hc.
  apply orb_false_iff in Hc as [Hp Hc].
  change (occurs_before "```" (String c u) "```")
    with (prefix "```" (String c (u ++ "```")) || occurs_before "```" u "```").
  rewrite IH; [rewrite orb_false_r| exact Hc |].
  - rewrite prefix_backticks_cons.
    destruct (Ascii.eqb_spec c "`"%char) as [->|]; [simpl andb|reflexivity].
    destruct u as [|c2 u]; [simpl in Hl; congruence|].
    change (String c2 u ++ "```") with (String c2 (u ++ "```")).
    rewrite prefix_cons; destruct (ascii_dec "`" c2) as [<-|]; [|reflexivity].
    destruct u as [|c3 u]; [simpl in Hl; congruence|].
    change (String c3 u ++ "```") with (String c3 (u ++ "```")).
    rewrite prefix_cons; destruct (ascii_dec "`" c3) as [<-|]; [|reflexivity].
    rewrite !prefix_cons in Hp.
    destruct (ascii_dec "`" "`"); [|congruence]; destruct u; discriminate.
  - destruct u as [|c2 u]; [discriminate|].
    simpl in Hl |- *; exact Hl.
Qed.

(** C7, corrected: for a body that contains neither three backticks nor
    [json] and does not end with a backtick, stripping the fenced text
    gives back the body itself (which stripping leaves unchanged too), so
    the parser returns on the fenced text exactly what it returns on the
    bare body, whatever [ast.literal_eval] makes of it. *)
Theorem strip_fences_fence (body : string) :
  PyStr.contains "```" body = false -> PyStr.contains "json" body = false ->
  last_char body <> Some "`"%char ->
  strip_fences (fence body) = body /\ strip_fences body = body /\
  forall le, parse_llm_extraction_response le [fence body] =
             parse_llm_extraction_response le [body].
Proof.
  intros Hb Hj Hl.
  assert (Hbody : strip_fences body = body).
  { unfold strip_fences, PyStr.replace; simpl.
    rewrite (replace_aux_absent "```" "" body Hb).
    apply replace_aux_absent, Hj. }
  assert (Hfence : strip_fences (fence body) = body).
  { change (strip_fences (fence body)) with
      (PyStr.replace_aux "json" "" 0
         (PyStr.replace_aux "```" "" 0 ("```" ++ (("json" ++ body) ++ "```")))).
    rewrite replace_aux_skip by discriminate; rewrite str_app_nil_l.
    rewrite replace_aux_occurs_before
      by (rewrite occurs_before_app, occurs_before_backticks by assumption;
          reflexivity).
    change (PyStr.replace_aux "```" "" 0 "```") with "".
    rewrite str_app_nil, replace_aux_skip by discriminate.
    rewrite str_app_nil_l; apply replace_aux_absent, Hj. }
  split; [exact Hfence|]; split; [exact Hbody|].
  intros le; simpl; rewrite Hfence, Hbody; reflexivity.
Qed.

Lemma strip_fences_fence_witness :
  strip_fences (fence (nl ++ json_name_body ++ nl)) <> nl ++ json_name_body ++ nl /\
  strip_fences (fence (nl ++ "{" ++ q "Revenue" ++ ": 1000}" ++ nl))
    = nl ++ "{" ++ q "Revenue" ++ ": 1000}" ++ nl.
Proof.
  split; [vm_compute; discriminate|].
  apply (strip_fences_fence (nl ++ "{" ++ q "Revenue" ++ ": 1000}" ++ nl));
    vm_compute; [reflexivity|reflexivity|discriminate].
Defined.

(** C7 fails as stated: the fenced JSON object with the JSON literal
    [true] strips to a text that [ast.literal_eval] rejects, so no
    mapping comes out of it. *)
Lemma fenced_json_true_rejected :
  Lit.lit_frag (strip_fences (fence (nl ++ json_true_body ++ nl))) = Fails /\
  fst (parse_llm_extraction_response literal_eval [fence (nl ++ json_true_body ++ nl)])
    = [nl ++ json_true_body ++ nl] /\
  snd (parse_llm_extraction_response literal_eval [fence (nl ++ json_true_body ++ nl)])
    = Raise LiteralError.
Proof. vm_compute; repeat split; reflexivity. Qed.

(** C10: stripping removes [json] wherever it occurs, so a well-formed
    reply whose file name contains [json] is parsed into a record whose
    file name has lost it, while the same body parses with the name intact. *)
Theorem strip_fences_rewrites_file_name :
  Lit.lit_frag json_name_body =
    Val (PDict [(PStr "Simbol", PStr "REXP");
                (PStr "file_name", PStr "30062022json.pdf");
                (PStr "Revenue", PInt 1000)]) /\
  parse_llm_extraction_response literal_eval [fence (nl ++ json_name_body ++ nl)] =
    ([], Ok [PDict [(PStr "Simbol", PStr "REXP");
                    (PStr "file_name", PStr "30062022.pdf");
                    (PStr "Revenue", PInt 1000)]]).
Proof. split; vm_compute; reflexivity. Qed.

(** ** Report Date derivation *)

(** peel a digit [n] (with [H : n < 10]) into its ten values *)
Ltac peel_digit n H :=
  first [ exfalso; lia
        | destruct n as [|n]; [clear H | peel_digit n H] ].

Ltac digit_cases H :=
  match type of H with
  | ?n < 10 => peel_digit n H
  end.

Lemma digit_of_char n : n < 10 -> digit_of (digit_char n) = Some (Z.of_nat n).
Proof. intros H; digit_cases H; reflexivity. Qed.

Lemma is_digit_char n : n < 10 -> Lit.is_digit (digit_char n) = true.
Proof. intros H; digit_cases H; reflexivity. Qed.

Lemma re_d_two d1 d2 r :
  d1 < 10 -> d2 < 10 -> 1 <= 10 * d1 + d2 <= 31 ->
  exists tl, re_d (String (digit_char d1) (String (digit_char d2) r)) =
             (Z.of_nat (10 * d1 + d2), r) :: tl.
Proof.
  intros H1 H2 Hb; digit_cases H1; digit_cases H2;
    first [exfalso; lia | eexists; reflexivity].
Qed.

Lemma re_m_two m1 m2 r :
  m1 < 10 -> m2 < 10 -> 1 <= 10 * m1 + m2 <= 12 ->
  exists tl, re_m (String (digit_char m1) (String (digit_char m2) r)) =
             (Z.of_nat (10 * m1 + m2), r) :: tl.
Proof.
  intros H1 H2 Hb; digit_cases H1; digit_cases H2;
    first [exfalso; lia | eexists; reflexivity].
Qed.

Lemma re_Y_cons a b c d r :
  re_Y (String a (String b (String c (String d r)))) =
  match digit_of a, digit_of b, digit_of c, digit_of d with
  | Some w, Some x, Some y, Some z => [((1000 * w + 100 * x + 10 * y + z)%Z, r)]
  | _, _, _, _ => []
  end.
Proof. reflexivity. Qed.

Lemma re_Y_four y1 y2 y3 y4 r :
  y1 < 10 -> y2 < 10 -> y3 < 10 -> y4 < 10 ->
  re_Y (String (digit_char y1) (String (digit_char y2)
          (String (digit_char y3) (String (digit_char y4) r)))) =
  [(Z.of_nat (1000 * y1 + 100 * y2 + 10 * y3 + y4), r)].
Proof.
  intros H1 H2 H3 H4; rewrite re_Y_cons, !digit_of_char by assumption.
  f_equal; f_equal; lia.
Qed.

Lemma days_in_month_le y m : (days_in_month y m <= 31)%Z.
Proof.
  unfold days_in_month; destruct (Z.eqb m 2); [destruct (is_leap y)|];
    [lia|lia|destruct (_ || _); lia].
Qed.

Lemma occurs_before_pdf u v :
  all_chars Lit.is_digit u = true -> occurs_before ".pdf" u v = false.
Proof.
  induction u as [|c u IH]; intros H; [reflexivity|].
  change (all_chars Lit.is_digit (String c u))
    with (Lit.is_digit c && all_chars Lit.is_digit u) in H.
  apply andb_true_iff in H as [Hc Hu].
  change (occurs_before ".pdf" (String c u) v)
    with (prefix ".pdf" (String c (u ++ v)) || occurs_before ".pdf" u v).
  rewrite IH by exact Hu; rewrite orb_false_r, prefix_cons.
  destruct (ascii_dec "." c) as [<-|]; [discriminate|reflexivity].
Qed.

Lemma replace_pdf_digits u :
  all_chars Lit.is_digit u = true -> PyStr.replace (u ++ ".pdf") ".pdf" "" = u.
Proof.
  intros H.
  change (PyStr.replace (u ++ ".pdf") ".pdf" "")
    with (PyStr.replace_aux ".pdf" "" 0 (u ++ ".pdf")).
  rewrite replace_aux_occurs_before by (apply occurs_before_pdf, H).
  apply str_app_nil.
Qed.

Lemma report_date_digits8 d1 d2 m1 m2 y1 y2 y3 y4 :
  d1 < 10 -> d2 < 10 -> m1 < 10 -> m2 < 10 ->
  y1 < 10 -> y2 < 10 -> y3 < 10 -> y4 < 10 ->
  let dd := Z.of_nat (10 * d1 + d2) in
  let mm := Z.of_nat (10 * m1 + m2) in
  let yy := Z.of_nat (1000 * y1 + 100 * y2 + 10 * y3 + y4) in
  (1 <= mm <= 12)%Z -> (1 <= dd <= days_in_month yy mm)%Z -> (1 <= yy)%Z ->
  report_date (digits8 d1 d2 m1 m2 y1 y2 y3 y4 ++ ".pdf") =
    Ok {| year := yy; month := mm; day := dd |}.
Proof.
  intros Hd1 Hd2 Hm1 Hm2 Hy1 Hy2 Hy3 Hy4 dd mm yy Hm Hd Hy.
  pose proof (days_in_month_le yy mm) as Hdim.
  unfold report_date; rewrite replace_pdf_digits
    by (unfold digits8; cbn [all_chars]; rewrite !is_digit_char by assumption; reflexivity).
  destruct (re_d_two d1 d2 (String (digit_char m1) (String (digit_char m2)
              (String (digit_char y1) (String (digit_char y2)
                (String (digit_char y3) (String (digit_char y4) EmptyString)))))))
    as [tl1 E1]; [assumption|assumption|subst dd; lia|].
  destruct (re_m_two m1 m2 (String (digit_char y1) (String (digit_char y2)
              (String (digit_char y3) (String (digit_char y4) EmptyString)))))
    as [tl2 E2]; [assumption|assumption|subst mm; lia|].
  unfold strptime_dmY, matches, digits8; rewrite E1; cbn [flat_map].
  rewrite E2; cbn [flat_map]; rewrite re_Y_four by assumption; cbn [map app].
  fold dd mm yy.
  assert (Hc : ((1 <=? yy) && (1 <=? mm) && (mm <=? 12) && (1 <=? dd)
                && (dd <=? days_in_month yy mm))%Z = true)
    by (rewrite !andb_true_iff, !Z.leb_le; lia).
  rewrite Hc; reflexivity.
Qed.

Lemma all_chars_app p a b :
  all_chars p (a ++ b) = all_chars p a && all_chars p b.
Proof.
  induction a as [|c a IH]; simpl; [reflexivity|]; rewrite IH, andb_assoc; reflexivity.
Qed.

Lemma digit_of_is_digit c x : digit_of c = Some x -> Lit.is_digit c = true.
Proof. unfold digit_of; destruct (Lit.is_digit c); congruence. Qed.

Lemma dig_in_is_digit lo hi c x : dig_in lo hi c = Some x -> Lit.is_digit c = true.
Proof.
  unfold dig_in; destruct (digit_of c) eqn:E; [|congruence].
  intros _; exact (digit_of_is_digit _ _ E).
Qed.

Lemma digit_or_space_digit c : Lit.is_digit c = true -> digit_or_space c = true.
Proof. unfold digit_or_space; intros ->; reflexivity. Qed.

Lemma two_consumes lo1 hi1 (a2 : ascii -> option Z) :
  (forall c x, a2 c = Some x -> Lit.is_digit c = true) ->
  consumes (two (dig_in lo1 hi1) a2).
Proof.
  intros Ha s v r H; destruct s as [|c1 [|c2 r']]; simpl in H; try contradiction.
  destruct (dig_in lo1 hi1 c1) eqn:E1, (a2 c2) eqn:E2; try contradiction.
  destruct H as [H|[]]; inversion H; subst.
  exists (String c1 (String c2 EmptyString)); split; [reflexivity|]; simpl.
  rewrite (digit_or_space_digit _ (dig_in_is_digit _ _ _ _ E1)),
          (digit_or_space_digit _ (Ha _ _ E2)); reflexivity.
Qed.

Lemma one_consumes lo hi : consumes (one (dig_in lo hi)).
Proof.
  intros s v r H; destruct s as [|c r']; simpl in H; try contradiction.
  destruct (dig_in lo hi c) eqn:E; try contradiction.
  destruct H as [H|[]]; inversion H; subst.
  exists (String c EmptyString); split; [reflexivity|]; simpl.
  rewrite (digit_or_space_digit _ (dig_in_is_digit _ _ _ _ E)); reflexivity.
Qed.

Lemma re_d_consumes : consumes re_d.
Proof.
  intros s v r H; unfold re_d in H; rewrite !in_app_iff in H.
  destruct H as [H|[H|[H|[H|H]]]].
  - eapply two_consumes; [intros c x; apply dig_in_is_digit|exact H].
  - eapply two_consumes; [intros c x; apply digit_of_is_digit|exact H].
  - eapply two_consumes; [intros c x; apply dig_in_is_digit|exact H].
  - eapply one_consumes; exact H.
  - destruct s as [|c s']; [contradiction|].
    destruct (sp c) eqn:Hsp; [|contradiction].
    destruct (one_consumes 1 9 s' v r H) as (p & -> & Hp).
    exists (String c p); split; [reflexivity|]; simpl.
    unfold digit_or_space; rewrite Hsp, orb_true_r; exact Hp.
Qed.

Lemma re_m_consumes : consumes re_m.
Proof.
  intros s v r H; unfold re_m in H; rewrite !in_app_iff in H.
  destruct H as [H|[H|H]].
  - eapply two_consumes; [intros c x; apply dig_in_is_digit|exact H].
  - eapply two_consumes; [intros c x; apply dig_in_is_digit|exact H].
  - eapply one_consumes; exact H.
Qed.

Lemma re_Y_consumes : consumes re_Y.
Proof.
  intros s v r H.
  destruct s as [|a [|b [|c [|d r']]]]; try contradiction.
  rewrite re_Y_cons in H.
  destruct (digit_of a) eqn:Ea, (digit_of b) eqn:Eb, (digit_of c) eqn:Ec,
           (digit_of d) eqn:Ed; try contradiction.
  destruct H as [H|[]]; inversion H; subst.
  exists (String a (String b (String c (String d EmptyString)))); split; [reflexivity|].
  simpl; rewrite (digit_or_space_digit _ (digit_of_is_digit _ _ Ea)),
    (digit_or_space_digit _ (digit_of_is_digit _ _ Eb)),
    (digit_or_space_digit _ (digit_of_is_digit _ _ Ec)),
    (digit_or_space_digit _ (digit_of_is_digit _ _ Ed)); reflexivity.
Qed.

Lemma matches_consume s d m y r :
  In (d, m, y, r) (matches s) ->
  exists p, s = p ++ r /\ all_chars digit_or_space p = true.
Proof.
  unfold matches; intros H.
  apply in_flat_map in H as ([d' r1] & H1 & H).
  apply in_flat_map in H as ([m' r2] & H2 & H).
  apply in_map_iff in H as ([y' r3] & Heq & H3); inversion Heq; subst r3.
  destruct (re_d_consumes _ _ _ H1) as (p1 & -> & P1).
  destruct (re_m_consumes _ _ _ H2) as (p2 & -> & P2).
  destruct (re_Y_consumes _ _ _ H3) as (p3 & -> & P3).
  exists (p1 ++ p2 ++ p3); split; [rewrite !str_app_assoc; reflexivity|].
  rewrite !all_chars_app, P1, P2, P3; reflexivity.
Qed.

Lemma strptime_dmY_chars s :
  is_ok (strptime_dmY s) = true -> all_chars digit_or_space s = true.
Proof.
  unfold strptime_dmY; destruct (matches s) as [|[[[d m] y] rest] tl] eqn:E;
    [discriminate|].
  destruct rest as [|c rest]; [|discriminate]; intros _.
  destruct (matches_consume s d m y "") as (p & -> & Hp); [rewrite E; now left|].
  rewrite str_app_nil; exact Hp.
Qed.

(** C2, corrected: the derivation deletes every [.pdf] and parses the rest
    with [%d%m%Y]: [30062022.pdf] gives 2022-06-30 and [31122024.pdf]
    gives 2024-12-31; every name made of eight digits forming a valid
    day, month and year, followed by [.pdf], gives that date; and it fails
    whenever what is left after deleting [.pdf] holds a character other
    than a digit or a space. *)
Theorem report_date_derivation :
  (report_date "30062022.pdf" = Ok {| year := 2022; month := 6; day := 30 |} /\
   report_date "31122024.pdf" = Ok {| year := 2024; month := 12; day := 31 |}) /\
  (forall d1 d2 m1 m2 y1 y2 y3 y4,
     d1 < 10 -> d2 < 10 -> m1 < 10 -> m2 < 10 ->
     y1 < 10 -> y2 < 10 -> y3 < 10 -> y4 < 10 ->
     let dd := Z.of_nat (10 * d1 + d2) in
     let mm := Z.of_nat (10 * m1 + m2) in
     let yy := Z.of_nat (1000 * y1 + 100 * y2 + 10 * y3 + y4) in
     (1 <= mm <= 12)%Z -> (1 <= dd <= days_in_month yy mm)%Z -> (1 <= yy)%Z ->
     report_date (digits8 d1 d2 m1 m2 y1 y2 y3 y4 ++ ".pdf") =
       Ok {| year := yy; month := mm; day := dd |}) /\
  (forall file_name,
     all_chars digit_or_space (PyStr.replace file_name ".pdf" "") = false ->
     exists e, report_date file_name = Raise e).
Proof.
  split; [split; reflexivity|]; split.
  - exact report_date_digits8.
  - intros fn H; unfold report_date in *.
    destruct (strptime_dmY (PyStr.replace fn ".pdf" "")) eqn:E; [|eauto].
    pose proof (strptime_dmY_chars (PyStr.replace fn ".pdf" "")) as Hc.
    rewrite E in Hc; specialize (Hc eq_refl); congruence.
Qed.

Lemma report_date_derivation_witness :
  report_date (digits8 2 9 0 2 2 0 2 4 ++ ".pdf") =
    Ok {| year := 2024; month := 2; day := 29 |} /\
  exists e, report_date "3006a022.pdf" = Raise e.
Proof.
  split.
  - apply (proj1 (proj2 report_date_derivation) 2 9 0 2 2 0 2 4);
      vm_compute; first [reflexivity | lia | split; discriminate | discriminate].
  - apply (proj2 (proj2 report_date_derivation)); vm_compute; reflexivity.
Defined.

(** C2 fails as stated: a name without the [.pdf] suffix is derived as
    well, and so is a date portion holding a space. *)
Lemma report_date_lenient :
  report_date "30062022" = Ok {| year := 2022; month := 6; day := 30 |} /\
  report_date " 1062022.pdf" = Ok {| year := 2022; month := 6; day := 1 |}.
Proof. split; reflexivity. Qed.

(** ** Assembler ordering *)

Lemma date_ltb_spec a b :
  Assembler.date_ltb a b = true <->
  (year a < year b \/ year a = year b /\
   (month a < month b \/ month a = month b /\ day a < day b))%Z.
Proof.
  unfold Assembler.date_ltb.
  rewrite orb_true_iff, andb_true_iff, orb_true_iff, andb_true_iff,
          !Z.ltb_lt, !Z.eqb_eq; tauto.
Qed.

Lemma date_ltb_false a b :
  Assembler.date_ltb a b = false <->
  ~ (year a < year b \/ year a = year b /\
     (month a < month b \/ month a = month b /\ day a < day b))%Z.
Proof. rewrite <- date_ltb_spec; destruct (Assembler.date_ltb a b); intuition congruence. Qed.

Lemma date_leb_spec a b :
  Assembler.date_leb a b = true <->
  ~ (year b < year a \/ year b = year a /\
     (month b < month a \/ month b = month a /\ day b < day a))%Z.
Proof.
  unfold Assembler.date_leb; rewrite <- date_ltb_false.
  destruct (Assembler.date_ltb b a); simpl; intuition congruence.
Qed.

Lemma date_leb_total a b :
  Assembler.date_leb a b = true \/ Assembler.date_leb b a = true.
Proof. rewrite !date_leb_spec; lia. Qed.

Lemma date_leb_trans a b c :
  Assembler.date_leb a b = true -> Assembler.date_leb b c = true ->
  Assembler.date_leb a c = true.
Proof. rewrite !date_leb_spec; lia. Qed.

Lemma date_eq a b :
  year a = year b -> month a = month b -> day a = day b -> a = b.
Proof. destruct a, b; simpl; intros -> -> ->; reflexivity. Qed.

Lemma date_leb_antisym a b :
  Assembler.date_leb a b = true -> Assembler.date_leb b a = true -> a = b.
Proof. rewrite !date_leb_spec; intros H1 H2; apply date_eq; lia. Qed.

Lemma date_leb_ltb a b :
  Assembler.date_leb a b = true -> a <> b -> Assembler.date_ltb a b = true.
Proof.
  rewrite date_leb_spec, date_ltb_spec; intros H Hne.
  destruct (Z.eq_dec (year a) (year b)), (Z.eq_dec (month a) (month b)),
           (Z.eq_dec (day a) (day b)); try lia.
  exfalso; apply Hne, date_eq; assumption.
Qed.

Lemma insert_row_perm x l : Permutation (x :: l) (Assembler.insert_row x l).
Proof.
  induction l as [|y l IH]; simpl; [reflexivity|].
  destruct (Assembler.date_leb (snd x) (snd y)); [reflexivity|].
  rewrite perm_swap; constructor; exact IH.
Qed.

Lemma sort_values_perm l : Permutation l (Assembler.sort_values l).
Proof.
  induction l as [|x l IH]; simpl; [reflexivity|].
  rewrite <- insert_row_perm; constructor; exact IH.
Qed.

Lemma insert_row_sorted x l :
  Sorted row_leb l -> Sorted row_leb (Assembler.insert_row x l).
Proof.
  induction 1 as [|y l Hs IH Hd]; simpl.
  - repeat constructor.
  - destruct (Assembler.date_leb (snd x) (snd y)) eqn:E.
    + constructor; [constructor; assumption|constructor; exact E].
    + constructor; [exact IH|].
      assert (Hyx : row_leb y x).
      { unfold row_leb; destruct (date_leb_total (snd x) (snd y)); congruence. }
      destruct l as [|z l]; simpl; [constructor; exact Hyx|].
      destruct (Assembler.date_leb (snd x) (snd z)); constructor;
        [exact Hyx | inversion Hd; assumption].
Qed.

Lemma sort_values_sorted l : Sorted row_leb (Assembler.sort_values l).
Proof.
  induction l as [|x l IH]; simpl; [constructor|].
  apply insert_row_sorted, IH.
Qed.

Lemma sorted_map_snd l :
  Sorted row_leb l ->
  Sorted (fun a b => Assembler.date_leb a b = true) (map snd l).
Proof.
  induction 1 as [|x l Hs IH Hd]; simpl; constructor; [exact IH|].
  destruct Hd; simpl; constructor; assumption.
Qed.

Lemma sorted_strict l :
  Sorted (fun a b => Assembler.date_leb a b = true) l -> NoDup l ->
  Sorted (fun a b => Assembler.date_ltb a b = true) l.
Proof.
  induction 1 as [|x l Hs IH Hd]; intros Hn; constructor.
  - apply IH; inversion Hn; assumption.
  - destruct Hd as [|y l' Hy]; constructor.
    apply date_leb_ltb; [exact Hy|].
    intros ->; inversion Hn; subst; apply H1; left; reflexivity.
Qed.

Lemma sorted_perm_eq l1 l2 :
  Sorted (fun a b => Assembler.date_leb a b = true) l1 ->
  Sorted (fun a b => Assembler.date_leb a b = true) l2 ->
  Permutation l1 l2 -> l1 = l2.
Proof.
  intros H1 H2.
  apply (Sorted_StronglySorted date_leb_trans) in H1.
  apply (Sorted_StronglySorted date_leb_trans) in H2.
  revert l2 H2; induction H1 as [|a r1 Hs1 IH Hf1]; intros l2 H2 Hp.
  - symmetry; apply Permutation_nil, Hp.
  - destruct H2 as [|b r2 Hs2 Hf2].
    + apply Permutation_sym, Permutation_nil_cons in Hp; contradiction.
    + assert (a = b) as <-.
      { destruct (Permutation_in a Hp (or_introl eq_refl)) as [->|Ha]; [reflexivity|].
        destruct (Permutation_in b (Permutation_sym Hp) (or_introl eq_refl))
          as [->|Hb]; [reflexivity|].
        apply date_leb_antisym.
        - rewrite Forall_forall in Hf1; exact (Hf1 b Hb).
        - rewrite Forall_forall in Hf2; exact (Hf2 a Ha). }
      f_equal; apply IH; [exact Hs2|].
      exact (Permutation_cons_inv Hp).
Qed.

Lemma derive_dates_app a b :
  Assembler.derive_dates (app a b) =
  match Assembler.derive_dates a with
  | Ok da =>
      match Assembler.derive_dates b with
      | Ok db => Ok (app da db)
      | Raise e => Raise e
      end
  | Raise e => Raise e
  end.
Proof.
  induction a as [|r a IH]; simpl.
  - destruct (Assembler.derive_dates b); reflexivity.
  - destruct (match Assembler.lookup "file_name" r with
              | Some (PStr fn) => report_date fn
              | _ => Raise TypeError end); simpl; [|reflexivity].
    rewrite IH; destruct (Assembler.derive_dates a); simpl; [|reflexivity].
    destruct (Assembler.derive_dates b); reflexivity.
Qed.

Lemma derive_dates_length rows ds :
  Assembler.derive_dates rows = Ok ds -> length ds = length rows.
Proof.
  revert ds; induction rows as [|r rows IH]; simpl; intros ds H.
  - inversion H; reflexivity.
  - destruct (match Assembler.lookup "file_name" r with
              | Some (PStr fn) => report_date fn
              | _ => Raise TypeError end); simpl in H; [|discriminate].
    destruct (Assembler.derive_dates rows) eqn:E; simpl in H; [|discriminate].
    inversion H; simpl; f_equal; apply IH; reflexivity.
Qed.

Lemma map_snd_combine {A B} (l : list A) (m : list B) :
  length l = length m -> map snd (combine l m) = m.
Proof.
  revert m; induction l as [|x l IH]; intros [|y m] H; simpl in *;
    try discriminate; [reflexivity|].
  f_equal; apply IH; congruence.
Qed.

Lemma has_col_swap k a b :
  Assembler.has_col k (a ++ b) = Assembler.has_col k (b ++ a).
Proof. unfold Assembler.has_col; rewrite !existsb_app, orb_comm; reflexivity. Qed.

Lemma has_col_map_swap k (f : Assembler.Row -> Assembler.Row) (a b : list Assembler.Row) :
  Assembler.has_col k (map f (a ++ b)) = Assembler.has_col k (map f (b ++ a)).
Proof. rewrite !map_app; apply has_col_swap. Qed.

Lemma has_key_remove_other k k' r :
  k <> k' -> Assembler.has_key k (Assembler.remove_key k' r) = Assembler.has_key k r.
Proof.
  intros Hne; induction r as [|[a v] r IH]; simpl; [reflexivity|].
  destruct (String.eqb a k') eqn:E; simpl; rewrite IH; [|reflexivity].
  apply String.eqb_eq in E; subst.
  destruct (String.eqb k' k) eqn:E2; [apply String.eqb_eq in E2; congruence|reflexivity].
Qed.

Lemma has_col_remove_other k k' rows :
  k <> k' ->
  Assembler.has_col k (map (Assembler.remove_key k') rows) = Assembler.has_col k rows.
Proof.
  intros Hne; unfold Assembler.has_col.
  induction rows as [|r rows IH]; cbn [map existsb]; [reflexivity|].
  rewrite (has_key_remove_other _ _ _ Hne), IH; reflexivity.
Qed.

Lemma reset_drop_eq rows :
  Assembler.reset_drop rows =
  if Assembler.has_col "index" rows && Assembler.has_col "level_0" rows
  then Raise (ValueError "cannot insert level_0, already exists")
  else if Assembler.has_col "index" rows || Assembler.has_col "level_0" rows
  then Ok (map drop_row rows)
  else Raise (KeyError "level_0").
Proof.
  unfold Assembler.reset_drop.
  rewrite (has_col_remove_other "level_0" "index") by discriminate.
  rewrite map_map.
  destruct (Assembler.has_col "index" rows) eqn:Ei; cbv beta iota zeta; rewrite ?Ei;
    destruct (Assembler.has_col "level_0" rows); reflexivity.
Qed.

Lemma reset_drop_ok rows rows1 :
  Assembler.reset_drop rows = Ok rows1 -> rows1 = map drop_row rows.
Proof.
  rewrite reset_drop_eq.
  destruct (Assembler.has_col "index" rows), (Assembler.has_col "level_0" rows);
    cbn [andb orb]; intros H; inversion H; reflexivity.
Qed.

Lemma reset_drop_swap a b :
  Assembler.reset_drop (b ++ a) =
  match Assembler.reset_drop (a ++ b) with
  | Ok _ => Ok (map drop_row (b ++ a))
  | Raise e => Raise e
  end.
Proof.
  rewrite !reset_drop_eq, (has_col_swap "index" b a), (has_col_swap "level_0" b a).
  destruct (Assembler.has_col "index" (a ++ b)), (Assembler.has_col "level_0" (a ++ b));
    reflexivity.
Qed.

Lemma assemble_ok a b tbl :
  Assembler.assemble a b = Ok tbl ->
  Assembler.reset_drop (a ++ b) = Ok (map drop_row (a ++ b)) /\
  Assembler.has_col "file_name" (map drop_row (a ++ b)) = true /\
  exists ds,
    Assembler.derive_dates (map drop_row (a ++ b)) = Ok ds /\
    tbl = Assembler.sort_values
            (combine (map (Assembler.remove_key "Report Date") (map drop_row (a ++ b))) ds).
Proof.
  unfold Assembler.assemble.
  destruct (Assembler.reset_drop (a ++ b)) as [rows|e] eqn:Er; [|discriminate].
  apply reset_drop_ok in Er as Hr; subst rows; cbn [bind].
  destruct (Assembler.has_col "file_name" (map drop_row (a ++ b))); cbn [negb];
    [|discriminate].
  destruct (Assembler.derive_dates (map drop_row (a ++ b))) eqn:E; cbn [bind];
    [|discriminate].
  intros H; inversion H; subst; repeat split; eauto.
Qed.

Lemma report_dates_sort rows ds :
  Assembler.derive_dates rows = Ok ds ->
  Permutation ds
    (Assembler.report_dates
       (Assembler.sort_values (combine (map (Assembler.remove_key "Report Date") rows) ds))) /\
  Sorted (fun x y => Assembler.date_leb x y = true)
    (Assembler.report_dates
       (Assembler.sort_values (combine (map (Assembler.remove_key "Report Date") rows) ds))).
Proof.
  intros H; unfold Assembler.report_dates; split.
  - rewrite <- (sort_values_perm (combine _ ds)), map_snd_combine; [reflexivity|].
    rewrite length_map; symmetry; exact (derive_dates_length _ _ H).
  - apply sorted_map_snd, sort_values_sorted.
Qed.

(** C8: whenever the assembly succeeds (every record's [file_name]
    yields a date), its Report Date column is a rearrangement of the
    derived dates sorted in ascending order, strictly ascending when
    these dates are distinct; assembling the per-company inputs in the
    other order succeeds too and gives the same Report Date column. *)
Theorem assemble_report_dates_sorted dipd rexp tbl :
  Assembler.assemble dipd rexp = Ok tbl ->
  (exists rows dates,
     Assembler.reset_drop (dipd ++ rexp) = Ok rows /\
     Assembler.derive_dates rows = Ok dates /\
     Permutation dates (Assembler.report_dates tbl)) /\
  Sorted (fun a b => Assembler.date_leb a b = true) (Assembler.report_dates tbl) /\
  (NoDup (Assembler.report_dates tbl) ->
   Sorted (fun a b => Assembler.date_ltb a b = true) (Assembler.report_dates tbl)) /\
  (exists tbl',
     Assembler.assemble rexp dipd = Ok tbl' /\
     Assembler.report_dates tbl' = Assembler.report_dates tbl).
Proof.
  intros H; destruct (assemble_ok _ _ _ H) as (Hr & Hf & ds & Hd & ->).
  destruct (report_dates_sort _ _ Hd) as [Hp Hs].
  split; [exists (map drop_row (dipd ++ rexp)), ds; split; [exact Hr|split; assumption]|].
  split; [exact Hs|]; split; [intros; apply sorted_strict; assumption|].
  rewrite map_app, derive_dates_app in Hd.
  destruct (Assembler.derive_dates (map drop_row dipd)) as [da|] eqn:Ea; [|discriminate].
  destruct (Assembler.derive_dates (map drop_row rexp)) as [db|] eqn:Eb; [|discriminate].
  injection Hd as <-.
  assert (Hd' : Assembler.derive_dates (map drop_row (rexp ++ dipd)) = Ok (app db da)).
  { rewrite map_app, derive_dates_app, Ea, Eb; reflexivity. }
  eexists; split.
  - unfold Assembler.assemble.
    rewrite (reset_drop_swap dipd rexp), Hr; cbn [bind].
    rewrite (has_col_map_swap "file_name" drop_row rexp dipd), Hf; cbn [negb].
    rewrite Hd'; cbn [bind]; reflexivity.
  - destruct (report_dates_sort _ _ Hd') as [Hp' Hs'].
    apply sorted_perm_eq; [exact Hs' | exact Hs|].
    rewrite <- Hp', <- Hp; apply Permutation_app_comm.
Qed.

Lemma assemble_report_dates_sorted_witness :
  exists tbl,
    Assembler.assemble dipd_records rexp_records = Ok tbl /\
    Sorted (fun a b => Assembler.date_ltb a b = true) (Assembler.report_dates tbl) /\
    Assembler.report_dates tbl =
      [{| year := 2022; month := 6; day := 30 |};
       {| year := 2022; month := 12; day := 31 |};
       {| year := 2023; month := 3; day := 31 |}].
Proof.
  exists (match Assembler.assemble dipd_records rexp_records with
          | Ok t => t | Raise _ => [] end).
  assert (Hok : Assembler.assemble dipd_records rexp_records =
                Ok (match Assembler.assemble dipd_records rexp_records with
                    | Ok t => t | Raise _ => [] end)) by (vm_compute; reflexivity).
  destruct (assemble_report_dates_sorted _ _ _ Hok) as (_ & _ & Hstrict & _).
  split; [exact Hok|]; split; [apply Hstrict|vm_compute; reflexivity].
  vm_compute; repeat constructor; simpl; intuition discriminate.
Defined.

(** ** Dataset Validator *)

Import Validator.

Lemma mem_In x l : mem x l = true <-> In x l.
Proof.
  unfold mem; rewrite existsb_exists; split.
  - intros (y & Hy & E); apply String.eqb_eq in E; subst; exact Hy.
  - intros H; exists x; split; [exact H|apply String.eqb_refl].
Qed.

Lemma missing_columns_In df c :
  In c (missing_columns df) <-> In c required_columns /\ ~ In c (columns df).
Proof.
  unfold missing_columns; rewrite filter_In, negb_true_iff.
  split; intros [H1 H2]; split; auto.
  - rewrite <- mem_In; congruence.
  - destruct (mem c (columns df)) eqn:E; [|reflexivity].
    apply mem_In in E; contradiction.
Qed.

Lemma cell_eqb_spec a b : cell_eqb a b = true <-> a = b.
Proof.
  destruct a as [x|], b as [y|]; simpl; try (split; congruence).
  rewrite String.eqb_eq; split; congruence.
Qed.

Lemma dedup_In l y : In y (dedup l) <-> In y l.
Proof.
  induction l as [|x l IH]; simpl; [tauto|].
  rewrite filter_In, IH, negb_true_iff; split.
  - intros [H|[H _]]; auto.
  - intros [H|H]; [left; exact H|].
    destruct (cell_eqb x y) eqn:E; [left; apply cell_eqb_spec, E|right; auto].
Qed.

Lemma invalid_companies_In df c :
  In c (invalid_companies df) <-> In c (simbol_cells df) /\ cell_valid c = false.
Proof.
  unfold invalid_companies; rewrite filter_In, dedup_In, negb_true_iff; tauto.
Qed.

Lemma find_first {A} (f : A -> bool) l x :
  find f l = Some x ->
  exists pre post, l = app pre (x :: post) /\ f x = true /\
                   forall y, In y pre -> f y = false.
Proof.
  induction l as [|a l IH]; simpl; [discriminate|].
  destruct (f a) eqn:E.
  - intros H; inversion H; subst; exists [], l; simpl; tauto.
  - intros H; destruct (IH H) as (pre & post & -> & Hx & Hpre).
    exists (a :: pre), post; split; [reflexivity|]; split; [exact Hx|].
    intros y [<-|Hy]; auto.
Qed.

Lemma first_non_numeric_first df col :
  first_non_numeric df = Some col ->
  exists pre post, numeric_columns = app pre (col :: post) /\
    is_numeric_dtype df col = false /\
    forall c, In c pre -> is_numeric_dtype df c = true.
Proof.
  unfold first_non_numeric; intros H.
  destruct (find_first _ _ _ H) as (pre & post & Hl & Hx & Hpre).
  exists pre, post; split; [exact Hl|]; split.
  - apply negb_true_iff, Hx.
  - intros c Hc; apply negb_false_iff, Hpre, Hc.
Qed.

(** C3, corrected: the checks run in the order (b) non-empty, (a) required
    columns, (c) symbols, (d) monetary columns in list order, (e) Report
    Date, (f) at least 4 rows; the result is the pass flag with no reason
    when every check passes, and otherwise the failure of the first check
    that fails, alone.  The missing columns reported are exactly the
    required ones absent from the table, the foreign symbols exactly those
    of the table outside REXP and DIPD, the non-numeric column the first
    one of the list that is not numeric; a table that cannot be read
    fails with the read error. *)
Theorem validate_data_structure_first_failure df :
  let v := validate_data_structure (Some df) in
  (nrows df = 0 -> v = (false, Some DataEmpty)) /\
  (nrows df <> 0 -> missing_columns df <> [] ->
   v = (false, Some (MissingColumns (missing_columns df)))) /\
  (nrows df <> 0 -> missing_columns df = [] -> invalid_companies df <> [] ->
   v = (false, Some (InvalidCompanies (invalid_companies df)))) /\
  (nrows df <> 0 -> missing_columns df = [] -> invalid_companies df = [] ->
   forall col, first_non_numeric df = Some col ->
   v = (false, Some (NotNumeric col)) /\
   exists pre post, numeric_columns = app pre (col :: post) /\
     is_numeric_dtype df col = false /\
     forall c, In c pre -> is_numeric_dtype df c = true) /\
  (nrows df <> 0 -> missing_columns df = [] -> invalid_companies df = [] ->
   first_non_numeric df = None -> report_date_parses df = false ->
   v = (false, Some BadDateFormat)) /\
  (nrows df <> 0 -> missing_columns df = [] -> invalid_companies df = [] ->
   first_non_numeric df = None -> report_date_parses df = true -> nrows df < 4 ->
   v = (false, Some InsufficientRecords)) /\
  (v = (true, None) <->
   4 <= nrows df /\ missing_columns df = [] /\ invalid_companies df = [] /\
   first_non_numeric df = None /\ report_date_parses df = true) /\
  (forall c, In c (missing_columns df) <->
             In c required_columns /\ ~ In c (columns df)) /\
  (forall c, In c (invalid_companies df) <->
             In c (simbol_cells df) /\ cell_valid c = false) /\
  validate_data_structure None = (false, Some ReadError).
Proof.
  intros v; subst v; unfold validate_data_structure.
  split; [intros ->; reflexivity|].
  split.
  { intros H0 Hm; apply Nat.eqb_neq in H0; rewrite H0.
    destruct (missing_columns df); [congruence|reflexivity]. }
  split.
  { intros H0 Hm Hi; apply Nat.eqb_neq in H0; rewrite H0, Hm.
    destruct (invalid_companies df); [congruence|reflexivity]. }
  split.
  { intros H0 Hm Hi col Hc; apply Nat.eqb_neq in H0; rewrite H0, Hm, Hi, Hc.
    split; [reflexivity|apply first_non_numeric_first, Hc]. }
  split.
  { intros H0 Hm Hi Hc Hd; apply Nat.eqb_neq in H0; rewrite H0, Hm, Hi, Hc, Hd.
    reflexivity. }
  split.
  { intros H0 Hm Hi Hc Hd H4; apply Nat.eqb_neq in H0; rewrite H0, Hm, Hi, Hc, Hd.
    apply Nat.ltb_lt in H4; rewrite H4; reflexivity. }
  split.
  { split.
    - destruct (Nat.eqb (nrows df) 0) eqn:H0; [discriminate|].
      destruct (missing_columns df); [|discriminate].
      destruct (invalid_companies df); [|discriminate].
      destruct (first_non_numeric df); [discriminate|].
      destruct (report_date_parses df); [|discriminate].
      destruct (Nat.ltb (nrows df) 4) eqn:H4; [discriminate|].
      apply Nat.ltb_ge in H4; intros _; repeat split; assumption.
    - intros (H4 & Hm & Hi & Hc & Hd).
      assert (H0 : Nat.eqb (nrows df) 0 = false) by (apply Nat.eqb_neq; lia).
      assert (H4' : Nat.ltb (nrows df) 4 = false) by (apply Nat.ltb_ge; lia).
      rewrite H0, Hm, Hi, Hc, Hd, H4'; reflexivity. }
  split; [apply missing_columns_In|].
  split; [apply invalid_companies_In|reflexivity].
Qed.

Lemma validate_data_structure_first_failure_witness :
  validate_data_structure (Some header_only_frame) = (false, Some DataEmpty).
Proof.
  apply (proj1 (validate_data_structure_first_failure header_only_frame)).
  reflexivity.
Defined.

(** C3 fails as stated: a table with no row that also lacks required
    columns is reported as empty, not as missing columns, so the
    non-empty check comes first. *)
Lemma validate_empty_before_missing_columns :
  validate_data_structure (Some header_only_frame) = (false, Some DataEmpty) /\
  missing_columns header_only_frame <> [].
Proof. split; [reflexivity|discriminate]. Qed.

(** ** Page Locator and Extraction Client, beyond the claims *)

Lemma find_absent sub s : PyStr.contains sub s = false -> PyStr.find sub s = (-1)%Z.
Proof.
  induction s as [|c s IH]; cbn [PyStr.contains PyStr.find]; intros H.
  - destruct (prefix sub ""); [discriminate|reflexivity].
  - apply orb_false_iff in H as [H1 H2]; rewrite H1, (IH H2); reflexivity.
Qed.

Lemma find_at sub s n :
  (forall i, i < n -> prefix sub (PyStr.drop i s) = false) ->
  prefix sub (PyStr.drop n s) = true ->
  PyStr.find sub s = Z.of_nat n.
Proof.
  revert s; induction n as [|n IH]; intros s Hb Ht.
  - destruct s; cbn [PyStr.find PyStr.drop] in *; rewrite Ht; reflexivity.
  - destruct s as [|c s].
    + specialize (Hb 0 ltac:(lia)); cbn [PyStr.drop] in *; congruence.
    + cbn [PyStr.find]. rewrite (Hb 0 ltac:(lia) : prefix sub (String c s) = false).
      rewrite (IH s); [| intros i Hi; exact (Hb (S i) ltac:(lia)) | exact Ht].
      destruct (Z.ltb_spec (Z.of_nat n) 0); [lia|]; f_equal; lia.
Qed.

Lemma drop_app a b k : PyStr.drop (String.length a + k) (a ++ b) = PyStr.drop k b.
Proof. induction a as [|c a IH]; simpl; [reflexivity|exact IH]. Qed.

Lemma drop_length a b : PyStr.drop (String.length a) (a ++ b) = b.
Proof. rewrite <- (Nat.add_0_r (String.length a)), drop_app; reflexivity. Qed.

(** The file name kept is what follows the first occurrence of the symbol
    and one more character; a path without the symbol loses its first four
    characters instead. *)
Theorem trim_file_name_spec :
  (forall simbol path, PyStr.contains simbol path = false ->
     trim_file_name simbol path = PyStr.drop 4 path) /\
  (forall simbol pre c name, String.length simbol = 4 ->
     (forall i, i < String.length pre ->
        prefix simbol (PyStr.drop i (pre ++ simbol ++ String c name)) = false) ->
     trim_file_name simbol (pre ++ simbol ++ String c name) = name).
Proof.
  split.
  - intros simbol path H; unfold trim_file_name, PyStr.slice_from.
    rewrite find_absent by exact H; reflexivity.
  - intros simbol pre c name Hl Hb; unfold trim_file_name, PyStr.slice_from.
    rewrite (find_at _ _ (String.length pre) Hb)
      by (rewrite drop_length; apply prefix_app_self).
    destruct (Z.ltb_spec (Z.of_nat (String.length pre) + 5) 0); [lia|].
    replace (Z.to_nat (Z.of_nat (String.length pre) + 5))
      with (String.length pre + (String.length simbol + 1)) by lia.
    rewrite drop_app, drop_app; reflexivity.
Qed.

Lemma trim_file_name_spec_witness :
  trim_file_name "REXP" "C:\proj\data\raw\\REXP\30062022.pdf" = "30062022.pdf" /\
  trim_file_name "REXP" "31122022.pdf" = "2022.pdf".
Proof.
  split.
  - apply (proj2 trim_file_name_spec "REXP" "C:\proj\data\raw\\" "\"%char "30062022.pdf");
      [reflexivity|].
    intros i Hi; simpl in Hi.
    do 18 (destruct i as [|i]; [reflexivity|]); lia.
  - rewrite (proj1 trim_file_name_spec); reflexivity.
Defined.

Lemma extraction_loop_sent llm t sys idx sent rs :
  extraction_loop llm t sys idx = (sent, Ok rs) ->
  length sent = length idx /\ rs = map (llm sys) sent /\
  forall i msg, nth_error sent i = Some msg ->
    exists j, nth_error idx i = Some j /\ build_message t j = Ok msg.
Proof.
  revert sent rs; induction idx as [|j idx IH]; simpl; intros sent rs H.
  - inversion H; subst; split; [reflexivity|split; [reflexivity|]].
    intros [|i] msg E; discriminate.
  - destruct (build_message t j) as [m|e] eqn:Eb; [|discriminate].
    destruct (extraction_loop llm t sys idx) as [sent' r'] eqn:El.
    destruct r' as [rs'|e]; inversion H; subst.
    destruct (IH sent' rs' eq_refl) as (L & M & N).
    split; [simpl; f_equal; exact L|]; split; [simpl; f_equal; exact M|].
    intros [|i] msg E; simpl in E.
    + inversion E; subst; exists j; split; [reflexivity|exact Eb].
    + exact (N i msg E).
Qed.

Lemma nth_error_seq_at s n i j : nth_error (seq s n) i = Some j -> j = s + i.
Proof.
  revert s i; induction n as [|n IH]; intros s [|i] H; simpl in H; try discriminate.
  - inversion H; lia.
  - rewrite (IH _ _ H); lia.
Qed.

Lemma llm_data_extraction_sent llm t sys sent rs :
  llm_data_extraction llm t sys = (sent, Ok rs) ->
  length sent = length (t_index t) /\ rs = map (llm sys) sent /\
  forall i msg, nth_error sent i = Some msg -> build_message t i = Ok msg.
Proof.
  unfold llm_data_extraction; intros H.
  destruct (extraction_loop_sent _ _ _ _ _ _ H) as (L & M & N).
  rewrite length_seq in L; split; [exact L|]; split; [exact M|].
  intros i msg E; destruct (N i msg E) as (j & Ej & B).
  rewrite (nth_error_seq_at _ _ _ _ Ej) in B; exact B.
Qed.

(** When the Extraction Client completes, it has sent one request per
    index entry, the i-th request being the message built from entry i,
    and it returns the model's replies in the order of the requests, every
    one under the same system prompt. *)
Theorem llm_data_extraction_replies llm t sys_prompt sent rs :
  llm_data_extraction llm t sys_prompt = (sent, Ok rs) ->
  length sent = length (t_index t) /\ rs = map (llm sys_prompt) sent /\
  forall i msg, nth_error sent i = Some msg -> build_message t i = Ok msg.
Proof. exact (llm_data_extraction_sent llm t sys_prompt sent rs). Qed.

Lemma llm_data_extraction_replies_witness :
  exists sent rs,
    llm_data_extraction (fun _ m => m) (Build_Target [0] ["REXP"] ["a.pdf"] ["p"]) "s"
      = (sent, Ok rs) /\ rs = sent.
Proof.
  do 2 eexists; split; [reflexivity|].
  destruct (llm_data_extraction_replies (fun _ m => m)
              (Build_Target [0] ["REXP"] ["a.pdf"] ["p"]) "s" _ _ eq_refl)
    as (_ & M & _).
  rewrite M, map_id; reflexivity.
Defined.

Lemma parse_outcome le rs :
  (forall vs, snd (parse_llm_extraction_response le rs) = Ok vs ->
     fst (parse_llm_extraction_response le rs) = [] /\
     map (fun r => le (strip_fences r)) rs = map Some vs) /\
  (forall e, snd (parse_llm_extraction_response le rs) = Raise e ->
     e = LiteralError /\
     exists pre r post, rs = app pre (r :: post) /\
       Forall (fun r => le (strip_fences r) <> None) pre /\
       le (strip_fences r) = None /\
       fst (parse_llm_extraction_response le rs) = [strip_fences r]).
Proof.
  induction rs as [|r rs IH]; simpl.
  - split; [intros vs H; inversion H; auto | intros e H; discriminate].
  - destruct (le (strip_fences r)) as [v|] eqn:E.
    + destruct (parse_llm_extraction_response le rs) as [out res] eqn:Ep;
        simpl in *; destruct IH as [IHok IHerr].
      split.
      * intros vs H; destruct res as [vs'|e]; inversion H; subst.
        destruct (IHok vs' eq_refl) as [-> M]; split; [reflexivity|].
        simpl; rewrite ?E, M; reflexivity.
      * intros e H; destruct res as [vs'|e']; inversion H; subst.
        destruct (IHerr e eq_refl) as (He & pre & r' & post & -> & F & N & O).
        split; [exact He|]; exists (r :: pre), r', post; split; [reflexivity|].
        split; [constructor; [congruence|exact F]|]; split; assumption.
    + simpl; split; [intros vs H; discriminate|].
      intros e H; inversion H; subst; split; [reflexivity|].
      exists [], r, rs; simpl; repeat split; auto.
Qed.

(** The Response Parser either prints nothing and returns one value per
    response, in order, each the literal of the stripped response, or
    raises after printing exactly the stripped text of the first response
    that is not a literal, all responses before it being literals. *)
Theorem parse_llm_extraction_response_outcome le responses :
  (forall vs, snd (parse_llm_extraction_response le responses) = Ok vs ->
     fst (parse_llm_extraction_response le responses) = [] /\
     map (fun r => le (strip_fences r)) responses = map Some vs) /\
  (forall e, snd (parse_llm_extraction_response le responses) = Raise e ->
     e = LiteralError /\
     exists pre r post, responses = app pre (r :: post) /\
       Forall (fun r => le (strip_fences r) <> None) pre /\
       le (strip_fences r) = None /\
       fst (parse_llm_extraction_response le responses) = [strip_fences r]).
Proof. exact (parse_outcome le responses). Qed.

Lemma parse_llm_extraction_response_outcome_witness :
  fst (parse_llm_extraction_response literal_eval ["{'a': 1}"; "oops"; "[]"])
    = ["oops"].
Proof.
  assert (Hr : snd (parse_llm_extraction_response literal_eval
                      ["{'a': 1}"; "oops"; "[]"]) = Raise LiteralError)
    by (vm_compute; reflexivity).
  destruct (proj2 (parse_llm_extraction_response_outcome literal_eval
                     ["{'a': 1}"; "oops"; "[]"]) LiteralError Hr)
    as (_ & pre & r & post & Hs & F & N & O).
  rewrite O.
  destruct pre as [|a [|b pre]]; simpl in Hs; inversion Hs; subst.
  - vm_compute in N; discriminate.
  - vm_compute; reflexivity.
  - inversion F as [|? ? Fa Fb]; subst; inversion Fb as [|? ? Fc _]; subst.
    exfalso; apply Fc; vm_compute; reflexivity.
Defined.

(** ** Report Date and Dataset Assembler, beyond the claims *)

Lemma has_col_false k rows :
  Forall (fun r => Assembler.has_key k r = false) rows -> Assembler.has_col k rows = false.
Proof.
  induction 1 as [|r rows Hr _ IH]; [reflexivity|].
  unfold Assembler.has_col in *; simpl; rewrite Hr, IH; reflexivity.
Qed.

Lemma lookup_none k r : Assembler.has_key k r = false -> Assembler.lookup k r = None.
Proof.
  unfold Assembler.has_key, Assembler.lookup; intros H.
  destruct (find (fun kv => String.eqb (fst kv) k) r) as [[a v]|] eqn:E; [|reflexivity].
  apply find_some in E as [Hin Heq].
  assert (existsb (fun kv => String.eqb (fst kv) k) r = true)
    by (apply existsb_exists; exists (a, v); auto).
  congruence.
Qed.

Lemma derive_dates_missing rows r :
  In r rows -> Assembler.has_key "file_name" r = false ->
  exists e, Assembler.derive_dates rows = Raise e.
Proof.
  induction rows as [|r' rows IH]; simpl; [contradiction|].
  intros [<-|Hin] Hk.
  - rewrite (lookup_none _ _ Hk); simpl; eauto.
  - destruct (match Assembler.lookup "file_name" r' with
              | Some (PStr fn) => report_date fn
              | _ => Raise TypeError end); simpl; [|eauto].
    destruct (IH Hin Hk) as [e He]; rewrite He; simpl; eauto.
Qed.

(** The DataFrame steps of [run] fail in three ways: with no record
    holding an [index] or a [level_0] key, [drop('level_0')] raises
    [KeyError]; with a record holding [index] and one holding [level_0],
    [reset_index] raises [ValueError]; and a record without [file_name]
    makes the assembly fail. *)
Theorem assemble_errors dipd rexp :
  (Forall (fun r => Assembler.has_key "index" r = false /\
                    Assembler.has_key "level_0" r = false) (app dipd rexp) ->
   Assembler.assemble dipd rexp = Raise (KeyError "level_0")) /\
  (Assembler.has_col "index" (app dipd rexp) = true ->
   Assembler.has_col "level_0" (app dipd rexp) = true ->
   Assembler.assemble dipd rexp =
     Raise (ValueError "cannot insert level_0, already exists")) /\
  (forall r, In r (app dipd rexp) -> Assembler.has_key "file_name" r = false ->
   exists e, Assembler.assemble dipd rexp = Raise e).
Proof.
  split; [|split].
  - intros H; unfold Assembler.assemble; rewrite reset_drop_eq.
    rewrite (has_col_false "index"), (has_col_false "level_0"); [reflexivity| |];
      (eapply Forall_impl; [|exact H]); intros r [A B]; assumption.
  - intros H1 H2; unfold Assembler.assemble; rewrite reset_drop_eq, H1, H2; reflexivity.
  - intros r Hin Hk; unfold Assembler.assemble; rewrite reset_drop_eq.
    destruct (Assembler.has_col "index" (app dipd rexp) &&
              Assembler.has_col "level_0" (app dipd rexp)); cbn [bind]; [eauto|].
    destruct (Assembler.has_col "index" (app dipd rexp) ||
              Assembler.has_col "level_0" (app dipd rexp)); cbn [bind]; [|eauto].
    destruct (Assembler.has_col "file_name" (map drop_row (app dipd rexp))); cbn [negb];
      [|eauto].
    assert (Hk' : Assembler.has_key "file_name" (drop_row r) = false)
      by (unfold drop_row; rewrite !has_key_remove_other by discriminate; exact Hk).
    destruct (derive_dates_missing _ _ (in_map drop_row _ _ Hin) Hk') as [e He].
    rewrite He; cbn [bind]; eauto.
Qed.

Lemma assemble_errors_witness :
  Assembler.assemble [[("file_name", PStr "30062022.pdf")]] []
    = Raise (KeyError "level_0") /\
  (exists e, Assembler.assemble [record "DIPD" "31032023.pdf" 0;
                                  [("index", PInt 1)]] [] = Raise e).
Proof.
  split.
  - apply (proj1 (assemble_errors [[("file_name", PStr "30062022.pdf")]] [])).
    repeat constructor; reflexivity.
  - apply (proj2 (proj2 (assemble_errors [record "DIPD" "31032023.pdf" 0;
                                           [("index", PInt 1)]] []))
             [("index", PInt 1)]); [simpl; auto | reflexivity].
Defined.

Lemma combine_dates_in rows ds row d :
  Assembler.derive_dates rows = Ok ds ->
  In (row, d) (combine (map (Assembler.remove_key "Report Date") rows) ds) ->
  exists r fn, In r rows /\ row = Assembler.remove_key "Report Date" r /\
    Assembler.lookup "file_name" r = Some (PStr fn) /\ report_date fn = Ok d.
Proof.
  revert ds; induction rows as [|r rows IH]; simpl; intros ds Hd Hin; [contradiction|].
  destruct (Assembler.lookup "file_name" r) as [v|] eqn:El; [|discriminate].
  destruct v as [fn| | | | |]; simpl in Hd; try discriminate.
  destruct (report_date fn) as [d0|] eqn:Er; simpl in Hd; [|discriminate].
  destruct (Assembler.derive_dates rows) as [ds'|] eqn:Er2; simpl in Hd; [|discriminate].
  inversion Hd; subst; simpl in Hin; destruct Hin as [H|H].
  - inversion H; subst; exists r, fn; auto.
  - destruct (IH ds' eq_refl H) as (r' & fn' & A & B & C & D).
    exists r', fn'; auto.
Qed.

Lemma assemble_rows_spec dipd rexp tbl :
  Assembler.assemble dipd rexp = Ok tbl ->
  length tbl = length dipd + length rexp /\
  forall row d, In (row, d) tbl ->
    exists r fn, In r (app dipd rexp) /\
      row = Assembler.remove_key "Report Date" (drop_row r) /\
      Assembler.lookup "file_name" (drop_row r) = Some (PStr fn) /\
      report_date fn = Ok d.
Proof.
  intros H; destruct (assemble_ok _ _ _ H) as (_ & _ & ds & Hd & ->).
  split.
  - rewrite <- (Permutation_length (sort_values_perm _)), length_combine, !length_map.
    rewrite (derive_dates_length _ _ Hd), length_map, length_app; lia.
  - intros row d Hin.
    apply (Permutation_in _ (Permutation_sym (sort_values_perm _))) in Hin.
    destruct (combine_dates_in _ _ _ _ Hd Hin) as (r1 & fn & Hr1 & A & B & C).
    apply in_map_iff in Hr1 as (r & <- & Hr).
    exists r, fn; auto.
Qed.

(** The assembled table has exactly one row per parsed record, and each
    row is one of the records, without its [index], [level_0] and
    [Report Date] keys,
    next to the date derived from that same record's [file_name]: sorting
    never separates a record from its date. *)
Theorem assemble_rows dipd rexp tbl :
  Assembler.assemble dipd rexp = Ok tbl ->
  length tbl = length dipd + length rexp /\
  forall row d, In (row, d) tbl ->
    exists r fn, In r (app dipd rexp) /\
      row = Assembler.remove_key "Report Date" (drop_row r) /\
      Assembler.lookup "file_name" (drop_row r) = Some (PStr fn) /\
      report_date fn = Ok d.
Proof. exact (assemble_rows_spec dipd rexp tbl). Qed.

Lemma assemble_rows_witness :
  exists tbl,
    Assembler.assemble [[("level_0", PInt 7); ("file_name", PStr "30062022.pdf")]] []
      = Ok tbl /\ length tbl = 1.
Proof.
  destruct (Assembler.assemble [[("level_0", PInt 7); ("file_name", PStr "30062022.pdf")]] [])
    as [t|e] eqn:Hok; [|vm_compute in Hok; discriminate].
  exists t; split; [reflexivity|].
  rewrite (proj1 (assemble_rows _ _ _ Hok)); reflexivity.
Defined.

(** ** The pipeline end to end *)

Lemma to_rows_length vs rows : to_rows vs = Some rows -> length rows = length vs.
Proof.
  revert rows; induction vs as [|v vs IH]; simpl; intros rows H.
  - inversion H; reflexivity.
  - destruct (to_row v), (to_rows vs) eqn:E; inversion H; simpl; f_equal; auto.
Qed.

Lemma parse_ok_length le rs vs :
  snd (parse_llm_extraction_response le rs) = Ok vs ->
  fst (parse_llm_extraction_response le rs) = [] /\ length vs = length rs.
Proof.
  intros H; destruct (proj1 (parse_outcome le rs) vs H) as [O M].
  split; [exact O|].
  apply (f_equal (@length _)) in M; rewrite !length_map in M; lia.
Qed.

Lemma run_success_spec raw llm le sys dr dd sent out tbl :
  raw "REXP" = Some dr -> raw "DIPD" = Some dd ->
  run raw llm le sys = (sent, out, Some (Ok tbl)) ->
  out = [] /\
  (exists td tr, extract_pl_pages raw "DIPD" = Ok td /\
     extract_pl_pages raw "REXP" = Ok tr /\
     sent = app (fst (llm_data_extraction llm td sys))
                (fst (llm_data_extraction llm tr sys))) /\
  length sent = length dd + length dr /\
  length tbl = length dd + length dr.
Proof.
  intros Hr Hd H; unfold run in H.
  rewrite (extract_pl_pages_spec raw "REXP" "Consolidated Income Statements" dr
             eq_refl Hr) in *.
  rewrite (extract_pl_pages_spec raw "DIPD" "STATEMENT OF PROFIT OR LOSS" dd
             eq_refl Hd) in *.
  set (tdd := Build_Target (seq 0 (length dd)) _ _ _) in H.
  set (trr := Build_Target (seq 0 (length dr)) _ _ _) in H.
  destruct (llm_data_extraction llm tdd sys) as [sd [rsd|e]] eqn:Ed;
    [|inversion H].
  destruct (llm_data_extraction llm trr sys) as [sr [rsr|e]] eqn:Erx;
    [|inversion H].
  destruct (parse_llm_extraction_response le rsd) as [od [vd|e]] eqn:Pd;
    [|inversion H].
  destruct (parse_llm_extraction_response le rsr) as [orr [vr|e]] eqn:Pr;
    [|inversion H].
  destruct (to_rows vd) as [a|] eqn:Ta; [|inversion H].
  destruct (to_rows vr) as [b|] eqn:Tb; [|inversion H].
  inversion H as [[Hs Ho Ht]]; clear H.
  destruct (llm_data_extraction_sent _ _ _ _ _ Ed) as (Ld & Md & _).
  destruct (llm_data_extraction_sent _ _ _ _ _ Erx) as (Lr & Mr & _).
  assert (Pd' := parse_ok_length le rsd vd); rewrite Pd in Pd'.
  destruct (Pd' eq_refl) as [Od Vd].
  assert (Pr' := parse_ok_length le rsr vr); rewrite Pr in Pr'.
  destruct (Pr' eq_refl) as [Or Vr].
  simpl in Od, Or, Ld, Lr; rewrite length_seq in Ld, Lr.
  split; [subst; reflexivity|].
  split; [exists tdd, trr; rewrite Ed, Erx; auto|].
  split; [rewrite length_app; lia|].
  rewrite (proj1 (assemble_rows_spec _ _ _ Ht)), (to_rows_length _ _ Ta),
          (to_rows_length _ _ Tb), Vd, Vr, Md, Mr, !length_map; lia.
Qed.

(** A run that completes has printed no response as unparsable (the
    parsers' output is empty), sends exactly one request per
    PDF document (DIPD's requests first, then REXP's) and writes a table
    with exactly one row per document. *)
Theorem run_success raw llm le sys_prompt dr dd sent out tbl :
  raw "REXP" = Some dr -> raw "DIPD" = Some dd ->
  run raw llm le sys_prompt = (sent, out, Some (Ok tbl)) ->
  out = [] /\
  (exists td tr, extract_pl_pages raw "DIPD" = Ok td /\
     extract_pl_pages raw "REXP" = Ok tr /\
     sent = app (fst (llm_data_extraction llm td sys_prompt))
                (fst (llm_data_extraction llm tr sys_prompt))) /\
  length sent = length dd + length dr /\
  length tbl = length dd + length dr.
Proof. exact (run_success_spec raw llm le sys_prompt dr dd sent out tbl). Qed.

(** a model that answers every request with the record in the format the
    prompt asks for, fenced *)
Lemma run_success_witness :
  exists sent tbl,
    run (fun s => if String.eqb s "REXP" then Some [rexp_one_page]
                  else Some [{| doc_path := "C:\data\raw\\DIPD\31032023.pdf";
                                doc_pages := ["STATEMENT OF PROFIT OR LOSS 1"] |}])
        (fun _ _ => "```json {'index': 0, 'file_name': '31032023.pdf', 'Revenue': 7,}```")
        literal_eval "" = (sent, [], Some (Ok tbl)) /\
    length sent = 2 /\ length tbl = 2.
Proof.
  set (raw := fun s => if String.eqb s "REXP" then Some [rexp_one_page]
                  else Some [{| doc_path := "C:\data\raw\\DIPD\31032023.pdf";
                                doc_pages := ["STATEMENT OF PROFIT OR LOSS 1"] |}]).
  set (llm := fun _ _ : string =>
          "```json {'index': 0, 'file_name': '31032023.pdf', 'Revenue': 7,}```").
  destruct (run raw llm literal_eval "") as [[sent out] res] eqn:E.
  assert (Hv : out = [] /\ exists tbl, res = Some (Ok tbl))
    by (vm_compute in E; inversion E; subst; eauto).
  destruct Hv as [-> [tbl ->]].
  exists sent, tbl; split; [reflexivity|].
  destruct (run_success raw llm literal_eval "" [rexp_one_page]
              [{| doc_path := "C:\data\raw\\DIPD\31032023.pdf";
                  doc_pages := ["STATEMENT OF PROFIT OR LOSS 1"] |}] sent [] tbl
              eq_refl eq_refl E) as (_ & _ & L1 & L2).
  split; [exact L1 | exact L2].
Defined.

(** ** [get_user_confirmation] *)

Lemma is_space_upper c : App.is_space (App.upper_char c) = App.is_space c.
Proof. destruct c as [[] [] [] [] [] [] [] []]; reflexivity. Qed.

Lemma lstrip_upper s : App.lstrip (App.upper s) = App.upper (App.lstrip s).
Proof.
  induction s as [|c s IH]; simpl; [reflexivity|].
  rewrite is_space_upper; destruct (App.is_space c); [exact IH|reflexivity].
Qed.

Lemma rstrip_upper s : App.rstrip (App.upper s) = App.upper (App.rstrip s).
Proof.
  induction s as [|c s IH]; simpl; [reflexivity|].
  rewrite IH; destruct (App.rstrip s); simpl; rewrite ?is_space_upper;
    [destruct (App.is_space c)|]; reflexivity.
Qed.

Lemma strip_upper s : App.strip (App.upper s) = App.upper (App.strip s).
Proof. unfold App.strip; rewrite lstrip_upper, rstrip_upper; reflexivity. Qed.

Lemma lstrip_spaces w s :
  all_chars App.is_space w = true -> App.lstrip (w ++ s) = App.lstrip s.
Proof.
  induction w as [|c w IH]; simpl; [reflexivity|].
  intros H; apply andb_true_iff in H as [Hc Hw]; rewrite Hc; exact (IH Hw).
Qed.

Lemma rstrip_spaces w : all_chars App.is_space w = true -> App.rstrip w = "".
Proof.
  induction w as [|c w IH]; simpl; [reflexivity|].
  intros H; apply andb_true_iff in H as [Hc Hw]; rewrite (IH Hw), Hc; reflexivity.
Qed.

Lemma lstrip_all_spaces w : all_chars App.is_space w = true -> App.lstrip w = "".
Proof. intros H; rewrite <- (str_app_nil w), lstrip_spaces by exact H; reflexivity. Qed.

Lemma rstrip_app_spaces s w :
  all_chars App.is_space w = true -> App.rstrip (s ++ w) = App.rstrip s.
Proof.
  intros Hw; induction s as [|c s IH]; simpl; [exact (rstrip_spaces w Hw)|].
  rewrite IH; reflexivity.
Qed.

Lemma strip_pad w1 s w2 :
  all_chars App.is_space w1 = true -> all_chars App.is_space w2 = true ->
  App.strip (w1 ++ s ++ w2) = App.strip s.
Proof.
  intros H1 H2; unfold App.strip; rewrite lstrip_spaces by exact H1.
  induction s as [|c s IH]; simpl.
  - rewrite lstrip_all_spaces by exact H2; reflexivity.
  - destruct (App.is_space c); [exact IH|].
    exact (rstrip_app_spaces (String c s) w2 H2).
Qed.

(** An answer is read whatever its case and the blanks around it:
    padding it with whitespace or changing the case of its letters does not
    change what [get_user_confirmation] does with it. *)
Theorem get_user_confirmation_normalised message w1 w2 s1 s2 rest :
  all_chars App.is_space w1 = true -> all_chars App.is_space w2 = true ->
  App.upper s1 = App.upper s2 ->
  App.get_user_confirmation message (App.Line (w1 ++ s1 ++ w2) :: rest) =
  App.get_user_confirmation message (App.Line s2 :: rest).
Proof.
  intros H1 H2 Hu; cbn [App.get_user_confirmation].
  rewrite strip_pad by assumption.
  rewrite <- strip_upper, Hu, strip_upper; reflexivity.
Qed.

Lemma get_user_confirmation_normalised_witness :
  App.get_user_confirmation "Go?" [App.Line " yEs  "] =
  App.get_user_confirmation "Go?" [App.Line "YES"].
Proof.
  exact (get_user_confirmation_normalised "Go?" " " "  " "yEs" "YES" []
           eq_refl eq_refl eq_refl).
Defined.

Lemma in_list_answers x :
  App.in_list x answers = App.in_list x ["Y"; "YES"] || App.in_list x ["N"; "NO"].
Proof. unfold App.in_list, answers; rewrite <- existsb_app; reflexivity. Qed.

Lemma confirmation_outcome message pre :
  Forall (fun l => App.in_list (App.upper (App.strip l)) answers = false) pre ->
  (forall line rest, App.in_list (App.upper (App.strip line)) answers = true ->
     App.get_user_confirmation message (app (map App.Line pre) (App.Line line :: rest)) =
     (app (concat (repeat [message ++ " (Y/N): "; "Please enter Y or N"] (length pre)))
          [message ++ " (Y/N): "],
      App.Confirmed (App.in_list (App.upper (App.strip line)) ["Y"; "YES"]), rest)) /\
  (forall rest,
     snd (fst (App.get_user_confirmation message
                 (app (map App.Line pre) (App.Interrupt :: rest)))) = App.Exited 0) /\
  snd (fst (App.get_user_confirmation message (map App.Line pre))) = App.EOFRaised.
Proof.
  induction 1 as [|p pre Hp _ IH].
  - split; [|split; reflexivity].
    intros line rest H; rewrite in_list_answers in H.
    cbn [app map App.get_user_confirmation length repeat concat].
    destruct (App.in_list (App.upper (App.strip line)) ["Y"; "YES"]); [reflexivity|].
    cbn [orb] in H; rewrite H; reflexivity.
  - rewrite in_list_answers in Hp; apply orb_false_iff in Hp as [Hy Hn].
    destruct IH as (IH1 & IH2 & IH3).
    cbn [app map App.get_user_confirmation length repeat concat].
    rewrite Hy, Hn; split; [|split].
    + intros line rest H; rewrite (IH1 line rest H); reflexivity.
    + intros rest; specialize (IH2 rest).
      destruct (App.get_user_confirmation message
                  (app (map App.Line pre) (App.Interrupt :: rest))) as [[o c] r];
        exact IH2.
    + destruct (App.get_user_confirmation message (map App.Line pre)) as [[o c] r];
        exact IH3.
Qed.

(** [get_user_confirmation] asks again, printing one reminder each time,
    until a line reads Y, YES, N or NO, and returns whether it was Y or YES;
    Ctrl-C at any prompt exits with 0, and input that ends first raises
    [EOFError]. *)
Theorem get_user_confirmation_outcome message pre :
  Forall (fun l => App.in_list (App.upper (App.strip l)) answers = false) pre ->
  (forall line rest, App.in_list (App.upper (App.strip line)) answers = true ->
     App.get_user_confirmation message (app (map App.Line pre) (App.Line line :: rest)) =
     (app (concat (repeat [message ++ " (Y/N): "; "Please enter Y or N"] (length pre)))
          [message ++ " (Y/N): "],
      App.Confirmed (App.in_list (App.upper (App.strip line)) ["Y"; "YES"]), rest)) /\
  (forall rest,
     snd (fst (App.get_user_confirmation message
                 (app (map App.Line pre) (App.Interrupt :: rest)))) = App.Exited 0) /\
  snd (fst (App.get_user_confirmation message (map App.Line pre))) = App.EOFRaised.
Proof. exact (confirmation_outcome message pre). Qed.

Lemma get_user_confirmation_outcome_witness :
  App.get_user_confirmation "Go?" [App.Line "maybe"; App.Line " no"] =
  (["Go? (Y/N): "; "Please enter Y or N"; "Go? (Y/N): "], App.Confirmed false, []).
Proof.
  exact (proj1 (get_user_confirmation_outcome "Go?" ["maybe"]
                  ltac:(repeat constructor)) " no" [] eq_refl).
Defined.

(** ** [main] *)

Ltac split_in H :=
  repeat (cbn beta iota zeta delta [negb] in H;
    match type of H with
    | context [match ?x with _ => _ end] =>
        lazymatch x with
        | context [match _ with _ => _ end] => fail
        | _ => destruct x eqn:?
        end
    end).

Lemma validate_step_launch a env k ins evs m :
  App.validate_step a env k ins = (evs, App.Launched m) ->
  (exists pre, evs = app pre [App.Validated true]) /\ App.launch a = App.Launched m.
Proof.
  unfold App.validate_step; intros H; split_in H; try discriminate.
  all: inversion H; subst; split; [|first [reflexivity | assumption]].
  all: first [ exists []; reflexivity
             | rewrite !app_comm_cons; eexists; reflexivity ].
Qed.

Lemma main_launch_spec args env evs m :
  App.main args env = (evs, App.Launched m) ->
  (exists pre, evs = app pre [App.Validated true]) /\
  m = if App.cli args then App.Cli else App.Web.
Proof.
  destruct args as [w [|] f]; unfold App.main;
    cbn beta iota zeta delta [App.cli App.web App.force negb];
    intros H; split_in H; try discriminate.
  all: first
    [ destruct (validate_step_launch _ _ _ _ _ _ H) as [[pre ->] Hl]
    | inversion H; subst;
      match goal with
      | E : App.validate_step _ _ _ _ = _ |- _ =>
          destruct (validate_step_launch _ _ _ _ _ _ E) as [[pre ->] Hl]
      end ].
  all: unfold App.launch in Hl; cbn in Hl; inversion Hl; subst; split; [|reflexivity].
  all: first [ eexists; reflexivity
             | eexists; rewrite app_comm_cons, app_assoc; reflexivity ].
Qed.

Lemma consent_scan_mono l : forall y r b y' r' b',
  consent_scan y r b l = true -> r' + y <= y' + r -> (b = true -> b' = true) ->
  consent_scan y' r' b' l = true.
Proof.
  induction l as [|e l IH]; intros y r b y' r' b' H Hle Hb; [reflexivity|].
  destruct e as [m [[|]|c|]| |ok|]; cbn [consent_scan] in *.
  - apply (IH _ _ _ _ _ _ H); [lia|].
    rewrite !orb_true_iff; intros [Hx|Hx]; [left; auto|right; exact Hx].
  - apply (IH _ _ _ _ _ _ H); assumption.
  - apply (IH _ _ _ _ _ _ H); assumption.
  - apply (IH _ _ _ _ _ _ H); assumption.
  - apply andb_true_iff in H as [H0 H]; apply Nat.ltb_lt in H0.
    apply andb_true_iff; split; [apply Nat.ltb_lt; lia|].
    apply (IH _ _ _ _ _ _ H); [lia|assumption].
  - apply (IH _ _ _ _ _ _ H); assumption.
  - apply andb_true_iff in H as [H0 H].
    apply andb_true_iff; split; [auto|].
    apply (IH _ _ _ _ _ _ H); assumption.
Qed.

Lemma consent_scan_spec evs : forall y r b,
  consent_scan y r b evs = true ->
  (forall pre post, evs = app pre (App.RanPipeline :: post) ->
     r + length (filter is_run pre) < y + length (filter is_yes pre)) /\
  (forall pre post, evs = app pre (App.Deleted :: post) ->
     b = true \/ In (App.Asked App.reextract_msg (App.Confirmed true)) pre).
Proof.
  induction evs as [|e evs IH]; intros y r b H.
  - split; intros [|p pre] post E; discriminate.
  - split; intros [|p pre] post E; cbn [app] in E; injection E as -> E.
    + cbn [consent_scan filter length] in *.
      apply andb_true_iff in H as [H _]; apply Nat.ltb_lt in H; lia.
    + destruct p as [m [[|]|c|]| |ok|]; cbn [consent_scan] in H;
        cbn [filter is_run is_yes length];
        try (apply andb_true_iff in H as [H0 H]);
        pose proof (proj1 (IH _ _ _ H) pre post E); lia.
    + cbn [consent_scan] in H; apply andb_true_iff in H as [H _]; left; exact H.
    + destruct p as [m [[|]|c|]| |ok|]; cbn [consent_scan In] in H |- *;
        try (apply andb_true_iff in H as [H0 H]);
        destruct (proj2 (IH _ _ _ H) pre post E) as [Hb|Hin]; auto.
      apply orb_true_iff in Hb as [Hb|Hb]; [left; exact Hb|].
      apply String.eqb_eq in Hb; subst m; right; left; reflexivity.
Qed.

Lemma validate_step_consent a env k ins evs o :
  App.validate_step a env k ins = (evs, o) -> consent_scan 0 0 false evs = true.
Proof.
  unfold App.validate_step, App.ask, App.run_extraction_pipeline; intros H.
  split_in H; inversion H; subst; vm_compute; reflexivity.
Qed.

Lemma main_consent_spec args env evs o :
  App.main args env = (evs, o) -> consent_scan 0 0 false evs = true.
Proof.
  unfold App.main, App.ask, App.run_extraction_pipeline; intros H; split_in H.
  all: first
    [ exact (validate_step_consent _ _ _ _ _ _ H)
    | inversion H; subst;
      first
        [ vm_compute; reflexivity
        | match goal with
          | E : App.validate_step _ _ _ _ = _ |- _ =>
              cbn [consent_scan app];
              apply (consent_scan_mono _ _ _ _ _ _ _ (validate_step_consent _ _ _ _ _ _ E));
              [lia | intros Hf; discriminate Hf]
          end ] ].
Qed.

(** [main] starts the pipeline only after a yes that no earlier run
    used: before each run there are more yes answers than runs; and it
    deletes the data file only after a yes to the question to delete and
    re-extract. *)
Theorem main_consent args env evs o :
  App.main args env = (evs, o) ->
  (forall pre post, evs = app pre (App.RanPipeline :: post) ->
     length (filter is_run pre) < length (filter is_yes pre)) /\
  (forall pre post, evs = app pre (App.Deleted :: post) ->
     In (App.Asked App.reextract_msg (App.Confirmed true)) pre).
Proof.
  intros H; destruct (consent_scan_spec _ _ _ _ (main_consent_spec _ _ _ _ H)) as [R D].
  split; intros pre post E; [exact (R pre post E)|].
  destruct (D pre post E) as [F|I]; [discriminate F|exact I].
Qed.

Lemma main_consent_witness :
  exists pre post,
    fst (App.main {| App.web := false; App.cli := false; App.force := false |}
                  env_revalidate) = app pre (App.Deleted :: post) /\
    In (App.Asked App.reextract_msg (App.Confirmed true)) pre.
Proof.
  destruct (App.main {| App.web := false; App.cli := false; App.force := false |}
              env_revalidate) as [evs o] eqn:E.
  assert (Hevs : evs = app [App.Validated false; App.Asked App.reextract_msg (App.Confirmed true)]
                           (App.Deleted :: [App.RanPipeline; App.Validated true]))
    by (vm_compute in E; inversion E; reflexivity).
  exists [App.Validated false; App.Asked App.reextract_msg (App.Confirmed true)],
         [App.RanPipeline; App.Validated true]; cbn [fst]; split; [exact Hevs|].
  exact (proj2 (main_consent _ _ _ _ E) _ _ Hevs).
Defined.

(** [main] starts an application only right after a validation that
    passed, and it starts the CLI exactly when [--cli] was given, the web
    dashboard otherwise. *)
Theorem main_launch args env evs m :
  App.main args env = (evs, App.Launched m) ->
  (exists pre, evs = app pre [App.Validated true]) /\
  m = if App.cli args then App.Cli else App.Web.
Proof. exact (main_launch_spec args env evs m). Qed.

Lemma main_launch_witness :
  exists pre, fst (App.main {| App.web := false; App.cli := false; App.force := false |}
                            env_revalidate) = app pre [App.Validated true].
Proof.
  destruct (App.main {| App.web := false; App.cli := false; App.force := false |}
              env_revalidate) as [evs o] eqn:E.
  assert (Ho : o = App.Launched App.Web) by (vm_compute in E; inversion E; reflexivity).
  subst o; exact (proj1 (main_launch _ _ _ _ E)).
Defined.

(** Without [--force], a data file that exists, is not empty and passes
    validation leads straight to the application: no question, no
    pipeline run. *)
Theorem main_valid_data args env :
  App.force args = false -> App.makedirs_ok env = true ->
  App.data_file_exists env = true -> 0 < App.data_file_size env ->
  fst (Validator.validate_data_structure (App.read_csv env 0)) = true ->
  App.main args env =
    ([App.Validated true], App.Launched (if App.cli args then App.Cli else App.Web)).
Proof.
  intros Hf Hm He Hs Hv; unfold App.main, App.validate_step.
  cbn beta iota zeta delta [App.force App.cli negb].
  rewrite Hm, Hf; cbn beta iota delta [negb].
  unfold App.check_data_exists; rewrite He; apply Nat.ltb_lt in Hs; rewrite Hs.
  cbn beta iota delta [andb].
  destruct (Validator.validate_data_structure (App.read_csv env 0)) as [ok r];
    cbn [fst] in Hv; subst ok; cbn beta iota.
  unfold App.launch; destruct (App.cli args); reflexivity.
Qed.

Lemma main_valid_data_witness :
  App.main {| App.web := false; App.cli := true; App.force := false |}
    {| App.makedirs_ok := true; App.data_file_exists := true; App.data_file_size := 1;
       App.script_exists := false; App.raw_dir_exists := false;
       App.data_file_at_delete := true; App.pipeline_ok := fun _ => false;
       App.read_csv := fun _ => App.read_csv env_revalidate 1; App.inputs := [] |}
  = ([App.Validated true], App.Launched App.Cli).
Proof. apply main_valid_data; vm_compute; reflexivity. Defined.
